(** * Mini-LinkedIn backend (server.js): auth gate, account routes, user search,
      connection requests and job applications.

    The Express application of [server.js] is embedded as pure functions over
    an explicit database value.  An [async] handler becomes a computation in
    the monad [M] (database state plus exceptions); [await] is the monadic
    bind; an exception that no [try]/[catch] of the source intercepts is the
    result [Threw], i.e. a rejected handler promise for which Express sends
    no response.  The libraries the file [require]s (jsonwebtoken, bcryptjs,
    the regular-expression engine of the document store, the ObjectId cast of
    mongoose) are not part of the program: they are the fields of
    [Externals]. *)

From Stdlib Require Import List String Ascii NArith Bool Arith Lia HexString.
Import ListNotations.
Open Scope string_scope.

Set Warnings "-register-all".

(** ** JSON values sent by [res.json] *)

Definition ObjectId := N.

Inductive Json : Type :=
| JNull
| JNum (n : N)
| JStr (s : string)
| JOid (o : ObjectId)
| JArr (items : list Json)
| JObj (fields : list (string * Json)).

Definition keys (j : Json) : list string :=
  match j with
  | JObj fields => map fst fields
  | _ => []
  end.

Definition has_key (k : string) (j : Json) : bool :=
  existsb (String.eqb k) (keys j).

Fixpoint assoc (k : string) (fields : list (string * Json)) : option Json :=
  match fields with
  | [] => None
  | (k', v) :: rest => if String.eqb k k' then Some v else assoc k rest
  end.

Definition field (k : string) (j : Json) : option Json :=
  match j with
  | JObj fields => assoc k fields
  | _ => None
  end.

(** ** MODELS (server.js lines 27-58) *)

(** A [User] document.  The schema requires no field: [name], [email] and
    [password] are present when the registration body carried them, and
    [password] may also be projected out ([.select("-password")]); [bio] is
    never written by this program. *)
Record User : Type := mkUser {
  u_id : ObjectId;
  name : option string;
  email : option string;
  password : option string;
  bio : option string;
  skills : list string;
  connections : list ObjectId
}.

Record ConnectionRequest : Type := mkConnectionRequest {
  cr_id : ObjectId;
  sender : ObjectId;
  receiver : ObjectId;
  status : string
}.

Record Job : Type := mkJob {
  j_id : ObjectId;
  company : ObjectId;
  title : string;
  description : string;
  location : string;
  skillsRequired : list string;
  applicants : list ObjectId
}.

(** The three collections, in insertion order, and the source of fresh
    [_id] values: mongoose draws a new ObjectId for each created document,
    modelled as a counter. *)
Record DB : Type := mkDB {
  users : list User;
  connectionrequests : list ConnectionRequest;
  jobs : list Job;
  next_oid : ObjectId
}.

(** [toJSON] of a document: the fields the schema declares, absent ones
    left out.  The version key [__v] that mongoose adds to every document is
    not modelled; an ObjectId is kept as [JOid] rather than as its
    hexadecimal string. *)
Definition opt_field (k : string) (v : option string) : list (string * Json) :=
  match v with
  | Some s => [(k, JStr s)]
  | None => []
  end.

Definition User_toJSON (u : User) : Json :=
  JObj ([("_id", JOid (u_id u))]
          ++ opt_field "name" (name u)
          ++ opt_field "email" (email u)
          ++ opt_field "password" (password u)
          ++ opt_field "bio" (bio u)
          ++ [("skills", JArr (map JStr (skills u)));
              ("connections", JArr (map JOid (connections u)))]).

Definition ConnectionRequest_toJSON (c : ConnectionRequest) : Json :=
  JObj [("_id", JOid (cr_id c)); ("sender", JOid (sender c));
        ("receiver", JOid (receiver c)); ("status", JStr (status c))].

(** ** Exceptions and the handler monad *)

Inductive Exn : Type :=
| TypeError              (* property access on null *)
| JsonWebTokenError      (* thrown by jwt.verify *)
| CastError              (* mongoose: value is not an ObjectId *)
| DuplicateKey           (* E11000, unique index on email *)
| RegexError             (* the store rejects the $regex pattern *)
| IllegalArguments.      (* bcrypt called with a missing argument *)

Inductive Res (A : Type) : Type :=
| Ok (a : A)
| Threw (e : Exn).
Arguments Ok {A} a.
Arguments Threw {A} e.

Definition M (A : Type) : Type := DB -> Res A * DB.

Definition ret {A} (a : A) : M A := fun db => (Ok a, db).
Definition throw {A} (e : Exn) : M A := fun db => (Threw e, db).
Definition bind {A B} (m : M A) (k : A -> M B) : M B :=
  fun db =>
    match m db with
    | (Ok a, db') => k a db'
    | (Threw e, db') => (Threw e, db')
    end.
Definition try_catch {A} (m : M A) (handler : Exn -> M A) : M A :=
  fun db =>
    match m db with
    | (Ok a, db') => (Ok a, db')
    | (Threw e, db') => handler e db'
    end.
Definition lift {A} (r : Res A) : M A := fun db => (r, db).

Declare Scope handler_scope.
Delimit Scope handler_scope with handler.
Notation "x <- m ;; k" := (bind m (fun x => k))
  (at level 100, m at next level, right associativity) : handler_scope.
Open Scope handler_scope.

(** ** External collaborators

    [jwt_verify] returns the decoded payload or throws; the payload type is
    the one every [jwt.sign] call of this program uses, [{ id: user._id }]
    (the [iat] field that the library adds is never read).  [regex p o] is
    the store's compilation of [{ $regex: p, $options: o }]: [None] when the
    pattern is rejected, otherwise the test applied to a field value.
    [castObjectId] is mongoose's cast of a string path parameter.
    [jwt_sign] returns the token or throws.  [findOne_undefined us] is what
    [User.findOne({ email: undefined })] returns on the collection [us]:
    how the library treats an undefined filter value is its own affair. *)

Record Payload : Type := mkPayload { id : ObjectId }.

Record Externals : Type := mkExternals {
  JWT_SECRET : string;
  jwt_sign : Payload -> string -> Res string;
  jwt_verify : string -> string -> Res Payload;
  bcrypt_hash : string -> N -> string;
  bcrypt_compareSync : string -> string -> bool;
  regex : string -> string -> option (string -> bool);
  castObjectId : string -> option ObjectId;
  findOne_undefined : list User -> option User
}.

(** ** Strings *)

(** [s.split(" ")] of JavaScript. *)
Fixpoint split_space (s : string) : list string :=
  match s with
  | EmptyString => [EmptyString]
  | String c rest =>
      if Ascii.eqb c " "%char then EmptyString :: split_space rest
      else match split_space rest with
           | piece :: pieces => String c piece :: pieces
           | [] => [String c EmptyString]
           end
  end.

Definition to_lower (c : ascii) : ascii :=
  let n := N_of_ascii c in
  if (65 <=? n)%N && (n <=? 90)%N then ascii_of_N (n + 32) else c.

Fixpoint lower (s : string) : string :=
  match s with
  | EmptyString => EmptyString
  | String c rest => String (to_lower c) (lower rest)
  end.

Fixpoint is_prefix (p s : string) : bool :=
  match p, s with
  | EmptyString, _ => true
  | String a p', String b s' => Ascii.eqb a b && is_prefix p' s'
  | String _ _, EmptyString => false
  end.

Fixpoint contains (q s : string) : bool :=
  is_prefix q s ||
  match s with
  | EmptyString => false
  | String _ s' => contains q s'
  end.

Definition no_space (s : string) : bool :=
  forallb (fun c => negb (Ascii.eqb c " "%char)) (list_ascii_of_string s).

(** [q] occurs in [s] as a substring, the case of ASCII letters ignored. *)
Definition ci_contains (q s : string) : bool := contains (lower q) (lower s).

(** Characters with a special meaning in a regular expression. *)
Definition is_meta (c : ascii) : bool :=
  existsb (Ascii.eqb c) (list_ascii_of_string "\^$.|?*+()[]{}").

Definition literal (q : string) : bool :=
  forallb (fun c => negb (is_meta c)) (list_ascii_of_string q).

(** ** Requests and responses *)

(** [req.body] as the account routes destructure it: nothing validates it,
    so each of the three fields may be missing ([None] is undefined). *)
Record Body : Type := mkBody {
  b_name : option string;
  b_email : option string;
  b_password : option string
}.

Record Request : Type := mkRequest {
  headers_authorization : option string;
  body : Body;
  query_q : option string;
  params_id : string;
  user : option User        (* req.user; [None] is null / undefined *)
}.

Definition set_user (req : Request) (u : option User) : Request :=
  mkRequest (headers_authorization req) (body req) (query_q req) (params_id req) u.

Record Response : Type := mkResponse {
  code : N;
  payload : Json
}.

Definition message (s : string) : Json := JObj [("message", JStr s)].

(** [res.status(c).json(j)] and [res.json(j)]. *)
Definition status_json (c : N) (j : Json) : Response := mkResponse c j.
Definition json (j : Json) : Response := mkResponse 200 j.

(** What a middleware does with a request: answer it, or call [next()]. *)
Inductive Step : Type :=
| Respond (r : Response)
| Next (req : Request).

(** ** The mongoose calls the program makes *)

Definition select_minus_password (u : User) : User :=
  mkUser (u_id u) (name u) (email u) None (bio u) (skills u) (connections u).

Definition opt_eqb (a b : option string) : bool :=
  match a, b with
  | Some x, Some y => String.eqb x y
  | None, None => true
  | _, _ => false
  end.

(** Whether the stored user has the given [email]; a missing field counts
    as a value of its own, as in the store's indexes. *)
Definition has_email (e : option string) (u : User) : bool := opt_eqb (email u) e.

(** [User.findById(id).select("-password")] *)
Definition User_findById_select (i : ObjectId) : M (option User) :=
  fun db =>
    (Ok (option_map select_minus_password
           (find (fun u => N.eqb (u_id u) i) (users db))), db).

(** [User.create({ name, email, password })]; the schema declares [email]
    unique, arrays default to empty. *)
Definition User_create (n e : option string) (p : string) : M User :=
  fun db =>
    if existsb (has_email e) (users db)
    then (Threw DuplicateKey, db)
    else
      let u := mkUser (next_oid db) n e (Some p) None [] [] in
      (Ok u, mkDB (users db ++ [u]) (connectionrequests db) (jobs db)
                  (N.succ (next_oid db))).

Definition same_pair (s r : ObjectId) (c : ConnectionRequest) : bool :=
  N.eqb (sender c) s && N.eqb (receiver c) r.

(** [Job.findByIdAndUpdate(id, { $addToSet: { applicants: u } })] on the
    array of one document. *)
Definition addToSet (u : ObjectId) (l : list ObjectId) : list ObjectId :=
  if existsb (N.eqb u) l then l else l ++ [u].

(** The update reaches the first document with the given [_id]. *)
Fixpoint update_first (i u : ObjectId) (l : list Job) : list Job :=
  match l with
  | [] => []
  | j :: rest =>
      if N.eqb (j_id j) i
      then mkJob (j_id j) (company j) (title j) (description j) (location j)
                 (skillsRequired j) (addToSet u (applicants j)) :: rest
      else j :: update_first i u rest
  end.

(** [.populate("company", "name")]: the reference is replaced by the
    referenced user restricted to [_id] and [name], or by null when no user
    has that [_id]. *)
Definition populate_company (us : list User) (c : ObjectId) : Json :=
  match find (fun u => N.eqb (u_id u) c) us with
  | Some u => JObj ([("_id", JOid (u_id u))] ++ opt_field "name" (name u))
  | None => JNull
  end.

Definition Job_toJSON (us : list User) (j : Job) : Json :=
  JObj [("_id", JOid (j_id j)); ("company", populate_company us (company j));
        ("title", JStr (title j)); ("description", JStr (description j));
        ("location", JStr (location j));
        ("skillsRequired", JArr (map JStr (skillsRequired j)));
        ("applicants", JArr (map JOid (applicants j)))].

(** [Job.find().populate("company", "name")] *)
Definition Job_find_populate : M (list Json) :=
  fun db => (Ok (map (Job_toJSON (users db)) (jobs db)), db).

(** The test of a [$regex] filter on [name]: a document without the field
    does not match. *)
Definition name_matches (test : string -> bool) (u : User) : bool :=
  match name u with
  | Some n => test n
  | None => false
  end.

Section Server.

Variable X : Externals.

(** [User.findOne({ email })] *)
Definition User_findOne (e : option string) : M (option User) :=
  fun db =>
    (Ok match e with
        | Some _ => find (has_email e) (users db)
        | None => findOne_undefined X (users db)
        end, db).

(** [Job.findById(id).populate("company", "name")]; the result is the
    populated document or null. *)
Definition Job_findById_populate (i : string) : M Json :=
  fun db =>
    match castObjectId X i with
    | None => (Threw CastError, db)
    | Some i' =>
        (Ok match find (fun j => N.eqb (j_id j) i') (jobs db) with
            | Some j => Job_toJSON (users db) j
            | None => JNull
            end, db)
    end.

(** [ConnectionRequest.findOne({ sender, receiver })]; [receiver] is the
    path parameter, cast to an ObjectId by the query. *)
Definition ConnectionRequest_findOne (s : ObjectId) (r : string)
  : M (option ConnectionRequest) :=
  fun db =>
    match castObjectId X r with
    | None => (Threw CastError, db)
    | Some r' => (Ok (find (same_pair s r') (connectionrequests db)), db)
    end.

(** [ConnectionRequest.create({ sender, receiver })]; [status] takes its
    default. *)
Definition ConnectionRequest_create (s : ObjectId) (r : string)
  : M ConnectionRequest :=
  fun db =>
    match castObjectId X r with
    | None => (Threw CastError, db)
    | Some r' =>
        let c := mkConnectionRequest (next_oid db) s r' "pending" in
        (Ok c, mkDB (users db) (connectionrequests db ++ [c]) (jobs db)
                    (N.succ (next_oid db)))
    end.

(** [User.find({ name: { $regex: q, $options: "i" } })] *)
Definition User_find_regex (q : string) : M (list User) :=
  fun db =>
    match regex X q "i" with
    | None => (Threw RegexError, db)
    | Some test => (Ok (filter (name_matches test) (users db)), db)
    end.

Definition Job_findByIdAndUpdate_addToSet (i : string) (u : ObjectId) : M unit :=
  fun db =>
    match castObjectId X i with
    | None => (Threw CastError, db)
    | Some i' =>
        (Ok tt, mkDB (users db) (connectionrequests db)
                     (update_first i' u (jobs db)) (next_oid db))
    end.

(** [req.user._id] *)
Definition user_id (req : Request) : M ObjectId :=
  match user req with
  | Some u => ret (u_id u)
  | None => throw TypeError
  end.

(** ** MIDDLEWARE (server.js lines 63-79)

    The [try] block covers the synchronous call [jwt.verify] only: the
    lookup it starts is a promise whose callback runs later, so the block
    yields that pending lookup and a rejection of it is not caught. *)
Definition auth (req : Request) : M Step :=
  match headers_authorization req with
  | None | Some EmptyString =>                                  (* !header *)
      ret (Respond (status_json 401 (message "No token")))
  | Some header =>
      let token := nth_error (split_space header) 1 in
      started <-
        try_catch
          (decoded <-
             lift (match token with
                   | Some t => jwt_verify X t (JWT_SECRET X)
                   | None => Threw JsonWebTokenError  (* jwt must be provided *)
                   end) ;;
           ret (inl (User_findById_select (id decoded))))
          (fun err =>
             ret (inr (status_json 401 (message "Invalid token")))) ;;
      match started with
      | inr response => ret (Respond response)
      | inl lookup =>
          u <- lookup ;;
          ret (Next (set_user req u))                 (* req.user = user; next() *)
      end
  end.

(** [app.METHOD(path, auth, handler)] *)
Definition protected (handler : Request -> M Response) (req : Request) : M Response :=
  step <- auth req ;;
  match step with
  | Respond r => ret r
  | Next req' => handler req'
  end.

(** ** AUTH ROUTES (server.js lines 84-110) *)

Definition token_and_user (token : string) (u : User) : Json :=
  JObj [("token", JStr token); ("user", User_toJSON u)].

(** [POST /api/auth/user/register] *)
Definition register (req : Request) : M Response :=
  try_catch
    (let name := b_name (body req) in
     let email := b_email (body req) in
     let password := b_password (body req) in
     found <- User_findOne email ;;
     match found with
     | Some _ => ret (status_json 400 (message "Email already exists"))
     | None =>
         hashed <- match password with
                   | Some pw => ret (bcrypt_hash X pw 10)
                   | None => throw IllegalArguments
                   end ;;
         user <- User_create name email hashed ;;
         token <- lift (jwt_sign X (mkPayload (u_id user)) (JWT_SECRET X)) ;;
         ret (json (token_and_user token user))
     end)
    (fun err => ret (status_json 500 (message "Server error"))).

(** [POST /api/auth/user/login] *)
Definition login (req : Request) : M Response :=
  let email := b_email (body req) in
  found <- User_findOne email ;;
  match found with
  | None => ret (status_json 400 (message "Invalid email"))
  | Some u =>
      matches <- match b_password (body req), password u with
                 | Some pw, Some h => ret (bcrypt_compareSync X pw h)
                 | _, _ => throw IllegalArguments
                 end ;;
      if negb matches
      then ret (status_json 400 (message "Wrong password"))
      else
        token <- lift (jwt_sign X (mkPayload (u_id u)) (JWT_SECRET X)) ;;
        ret (json (token_and_user token u))
  end.

(** ** USERS ROUTES (server.js lines 115-119) *)

(** [req.query.q || ""] *)
Definition query_or_empty (req : Request) : string :=
  match query_q req with
  | Some q => q
  | None => ""
  end.

Definition users_all (req : Request) : M Response :=
  let q := query_or_empty req in
  users <- User_find_regex q ;;
  ret (json (JArr (map User_toJSON users))).

(** ** CONNECTION ROUTES (server.js lines 124-133) *)

Definition connections_request (req : Request) : M Response :=
  sender <- user_id req ;;
  let receiver := params_id req in
  exists_ <- ConnectionRequest_findOne sender receiver ;;
  match exists_ with
  | Some _ => ret (status_json 400 (message "Already sent"))
  | None =>
      reqObj <- ConnectionRequest_create sender receiver ;;
      ret (json (ConnectionRequest_toJSON reqObj))
  end.

(** ** JOB ROUTES (server.js lines 148-153) *)

Definition jobs_apply (req : Request) : M Response :=
  applicant <- user_id req ;;
  _ <- Job_findByIdAndUpdate_addToSet (params_id req) applicant ;;
  ret (json (message "Applied")).

(** ** JOB ROUTES, reading (server.js lines 138-146) *)

Definition jobs_all (req : Request) : M Response :=
  jobs <- Job_find_populate ;;
  ret (json (JArr jobs)).

Definition jobs_by_id (req : Request) : M Response :=
  job <- Job_findById_populate (params_id req) ;;
  ret (json job).

(** The routes as registered on [app]. *)
Definition GET_users_all := protected users_all.
Definition POST_connections_request := protected connections_request.
Definition POST_jobs_apply := protected jobs_apply.
Definition GET_jobs_all := protected jobs_all.
Definition GET_jobs_id := protected jobs_by_id.

(** The whole application: one handler stack per route. *)
Inductive Route : Type :=
| PostRegister
| PostLogin
| GetUsersAll
| PostConnectionsRequest
| GetJobsAll
| GetJobsId
| PostJobsApply.

Definition app (r : Route) : Request -> M Response :=
  match r with
  | PostRegister => register
  | PostLogin => login
  | GetUsersAll => GET_users_all
  | PostConnectionsRequest => POST_connections_request
  | GetJobsAll => GET_jobs_all
  | GetJobsId => GET_jobs_id
  | PostJobsApply => POST_jobs_apply
  end.

End Server.

(** ** Properties assumed of the collaborators *)

(** Signing with the process secret succeeds, and the token verifies to
    the signed payload. *)
Definition jwt_round_trip (X : Externals) : Prop :=
  forall p, exists t,
    jwt_sign X p (JWT_SECRET X) = Ok t /\ jwt_verify X t (JWT_SECRET X) = Ok p.

(** Tokens are one word: they hold no space, so [split(" ")] leaves them
    whole. *)
Definition jwt_one_word (X : Externals) : Prop :=
  forall p t, jwt_sign X p (JWT_SECRET X) = Ok t -> no_space t = true.

(** A pattern without metacharacters is accepted and, with option [i],
    tests for a substring with letter case ignored. *)
Definition regex_literal (X : Externals) : Prop :=
  forall q, literal q = true ->
    exists test, regex X q "i" = Some test /\ forall s, test s = ci_contains q s.

(** The gate lets [req] through with principal [u]. *)
Definition authenticated_as (X : Externals) (req : Request) (db : DB) (u : User) : Prop :=
  auth X req db = (Ok (Next (set_user req (Some u))), db).

(** The header carries no token that verifies: [split(" ")[1]] is missing
    or [jwt.verify] throws on it. *)
Definition verification_fails (X : Externals) (header : string) : Prop :=
  match nth_error (split_space header) 1 with
  | Some t => exists e, jwt_verify X t (JWT_SECRET X) = Threw e
  | None => True
  end.

Definition pair_absent (s r : ObjectId) (db : DB) : Prop :=
  forall c, In c (connectionrequests db) -> ~ (sender c = s /\ receiver c = r).

Definition Job_findById (i : ObjectId) (db : DB) : option Job :=
  find (fun j => N.eqb (j_id j) i) (jobs db).

(** bcryptjs accepts a password against its own hash. *)
Definition bcrypt_correct (X : Externals) : Prop :=
  forall pw, bcrypt_compareSync X pw (bcrypt_hash X pw 10) = true.

(** No two stored users share an email. *)
Definition emails_unique (db : DB) : Prop := NoDup (map email (users db)).

(** No two stored requests share an ordered (sender, receiver) pair. *)
Definition pair_of (c : ConnectionRequest) : ObjectId * ObjectId :=
  (sender c, receiver c).
Definition pairs_unique (db : DB) : Prop :=
  NoDup (map pair_of (connectionrequests db)).

(** Every stored user [_id] was drawn before the next one to be drawn. *)
Definition user_ids_drawn (db : DB) : Prop :=
  forall u, In u (users db) -> (u_id u < next_oid db)%N.

(** The changes a single request can make to the database: none, one user
    appended under an email not yet stored, one pending request appended
    under a pair not yet stored, or one [$addToSet] on the applicants of
    the first job with a given [_id]. *)
Inductive Effect (db : DB) : DB -> Prop :=
| Unchanged : Effect db db
| UserAdded (n e : option string) (p : string) :
    existsb (has_email e) (users db) = false ->
    Effect db (mkDB (users db ++ [mkUser (next_oid db) n e (Some p) None [] []])
                    (connectionrequests db) (jobs db) (N.succ (next_oid db)))
| RequestAdded (s r : ObjectId) :
    find (same_pair s r) (connectionrequests db) = None ->
    Effect db (mkDB (users db)
                    (connectionrequests db
                       ++ [mkConnectionRequest (next_oid db) s r "pending"])
                    (jobs db) (N.succ (next_oid db)))
| ApplicantAdded (j u : ObjectId) :
    Effect db (mkDB (users db) (connectionrequests db)
                    (update_first j u (jobs db)) (next_oid db)).

(** The routes that only read. *)
Definition reads_only (r : Route) : bool :=
  match r with
  | PostLogin | GetUsersAll | GetJobsAll | GetJobsId => true
  | _ => false
  end.

(** ** Building requests *)

Definition empty_db : DB := mkDB [] [] [] 0%N.

Definition no_body : Body := mkBody None None None.

(** A request with an Authorization header, a query parameter [q] and a
    path parameter [:id]. *)
Definition request (header : option string) (q : option string) (param : string)
  : Request := mkRequest header no_body q param None.

(** A request whose JSON body is [{name, email, password}]. *)
Definition credentials (n e p : string) : Request :=
  mkRequest None (mkBody (Some n) (Some e) (Some p)) None "" None.

(** The same body without the [password] field. *)
Definition no_password (n e : string) : Request :=
  mkRequest None (mkBody (Some n) (Some e) None) None "" None.

(** The empty pattern is accepted and matches every value. *)
Definition regex_empty_matches (X : Externals) : Prop :=
  exists test, regex X "" "i" = Some test /\ forall s, test s = true.

(** The JSON body of a response [{ token, user }]. *)
Definition carries (r : Response) (token : string) (u : User) : Prop :=
  code r = 200%N /\
  field "token" (payload r) = Some (JStr token) /\
  field "user" (payload r) = Some (User_toJSON u).

(** ** A concrete instance of the collaborators

    Small executable stand-ins, used to run the routes on sample requests:
    a token is the secret, a dot and the identifier in hexadecimal; the
    regular expressions are literal characters and the wildcard [.]. *)
Module Sample.

Fixpoint strip_prefix (p s : string) : option string :=
  match p, s with
  | EmptyString, _ => Some s
  | String a p', String b s' => if Ascii.eqb a b then strip_prefix p' s' else None
  | String _ _, EmptyString => None
  end.

Definition parse_oid (s : string) : option ObjectId :=
  if String.eqb (HexString.of_N (HexString.to_N s)) s
  then Some (HexString.to_N s) else None.

Definition sign (p : Payload) (secret : string) : string :=
  secret ++ "." ++ HexString.of_N (id p).

Definition verify (t secret : string) : Res Payload :=
  match strip_prefix (secret ++ ".") t with
  | Some rest =>
      match parse_oid rest with
      | Some i => Ok (mkPayload i)
      | None => Threw JsonWebTokenError
      end
  | None => Threw JsonWebTokenError
  end.

Definition hash (pw : string) (rounds : N) : string := "$2a$" ++ pw.
Definition compareSync (pw h : string) : bool := String.eqb (hash pw 10) h.

Definition newline : ascii := ascii_of_N 10.

Definition match_char (ci : bool) (p c : ascii) : bool :=
  if Ascii.eqb p "."%char then negb (Ascii.eqb c newline)
  else if ci then Ascii.eqb (to_lower p) (to_lower c)
  else Ascii.eqb p c.

Fixpoint match_here (ci : bool) (pat subj : string) : bool :=
  match pat, subj with
  | EmptyString, _ => true
  | String p pat', String c subj' => match_char ci p c && match_here ci pat' subj'
  | String _ _, EmptyString => false
  end.

Fixpoint search (ci : bool) (pat subj : string) : bool :=
  match_here ci pat subj ||
  match subj with
  | EmptyString => false
  | String _ subj' => search ci pat subj'
  end.

Definition supported (pat : string) : bool :=
  forallb (fun c => negb (is_meta c) || Ascii.eqb c "."%char)
          (list_ascii_of_string pat).

Definition compile (pat opts : string) : option (string -> bool) :=
  if supported pat then Some (search (contains "i" opts) pat) else None.

(** [findOne({})]: the first document of the collection. *)
Definition first_user (us : list User) : option User := hd_error us.

Definition externals : Externals :=
  mkExternals "s3cret" (fun p secret => Ok (sign p secret)) verify hash
              compareSync compile parse_oid first_user.

(** The same collaborators with a [jwt.sign] that throws. *)
Definition externals_no_sign : Externals :=
  mkExternals "s3cret" (fun _ _ => Threw JsonWebTokenError) verify hash
              compareSync compile parse_oid first_user.

Definition alice : User :=
  mkUser 1%N (Some "alice") (Some "alice@x.com") (Some "$2a$pw1") None [] [].
Definition bob : User :=
  mkUser 2%N (Some "bob") (Some "bob@x.com") (Some "$2a$pw2") None [] [].
Definition abc : User :=
  mkUser 3%N (Some "abc") (Some "abc@x.com") (Some "$2a$pw3") None [] [].

Definition post_job : Job :=
  mkJob 7%N 2%N "Engineer" "Builds things" "Pune" ["js"] [].

Definition a_to_b : ConnectionRequest := mkConnectionRequest 8%N 1%N 2%N "accepted".

Definition db0 : DB := mkDB [alice; bob; abc] [] [post_job] 9%N.
Definition db_ab : DB := mkDB [alice; bob; abc] [a_to_b] [post_job] 9%N.

(** A job whose stored applicants already list alice twice. *)
Definition seeded_job : Job :=
  mkJob 7%N 2%N "Engineer" "Builds things" "Pune" ["js"] [1%N; 1%N].
Definition db_seeded : DB := mkDB [alice; bob; abc] [] [seeded_job] 9%N.

(** A user stored without a name. *)
Definition nameless : User :=
  mkUser 4%N None (Some "anon@x.com") (Some "$2a$pw5") None [] [].
Definition db_nameless : DB := mkDB [alice; nameless] [] [] 9%N.

End Sample.

(** * Properties *)

(** ** The monad and the gate *)

Ltac run := unfold bind, try_catch, lift, ret, throw in *; cbv beta iota in *.

Section Gate.

Variable X : Externals.

(** The gate only reads the database. *)
Lemma auth_reads_only (req : Request) (db : DB) : snd (auth X req db) = db.
Proof.
  unfold auth.
  destruct (headers_authorization req) as [[|c h]|]; try reflexivity.
  run.
  destruct (nth_error (split_space _) 1) as [t|]; [destruct (jwt_verify X t (JWT_SECRET X))|];
    reflexivity.
Qed.

(** Its answer depends on the [users] collection alone. *)
Lemma auth_users_only (req : Request) (db db' : DB) :
  users db = users db' -> fst (auth X req db) = fst (auth X req db').
Proof.
  intros E. unfold auth.
  destruct (headers_authorization req) as [[|c h]|]; try reflexivity.
  run.
  destruct (nth_error (split_space _) 1) as [t|]; [destruct (jwt_verify X t (JWT_SECRET X))|];
    try reflexivity.
  unfold User_findById_select; simpl. now rewrite E.
Qed.

Lemma authenticated_frame (req : Request) (db db' : DB) (u : User) :
  users db = users db' -> authenticated_as X req db u -> authenticated_as X req db' u.
Proof.
  unfold authenticated_as; intros E H.
  pose proof (auth_users_only req db db' E) as F.
  pose proof (auth_reads_only req db') as S.
  rewrite H in F; simpl in F.
  destruct (auth X req db') as [r d]; simpl in *; congruence.
Qed.

(** A principal attached by the gate is a stored user without its secret. *)
Lemma authenticated_stored (req : Request) (db : DB) (u : User) :
  authenticated_as X req db u ->
  exists stored, In stored (users db) /\ u = select_minus_password stored.
Proof.
  unfold authenticated_as, auth.
  destruct (headers_authorization req) as [[|c h]|]; try discriminate.
  run.
  destruct (nth_error (split_space _) 1) as [t|]; [destruct (jwt_verify X t (JWT_SECRET X))|];
    try discriminate.
  unfold User_findById_select; simpl.
  destruct (find _ (users db)) as [stored|] eqn:F; simpl; intros H.
  - apply find_some in F. exists stored; split; [tauto|].
    unfold set_user in H. congruence.
  - unfold set_user in H. congruence.
Qed.

Lemma protected_next (handler : Request -> M Response) (req req' : Request) (db : DB) :
  auth X req db = (Ok (Next req'), db) -> protected X handler req db = handler req' db.
Proof. intros H. unfold protected, bind. now rewrite H. Qed.

Lemma protected_respond (handler : Request -> M Response) (req : Request) (db : DB) r :
  auth X req db = (Ok (Respond r), db) -> protected X handler req db = (Ok r, db).
Proof. intros H. unfold protected, bind. now rewrite H. Qed.

(** C2: a request to a protected route without an Authorization header is
    answered 401 [{message: "No token"}] by the gate; the answer and the
    database are the same whatever the route handler is, so the handler is
    not run. *)
Theorem auth_no_header (handler : Request -> M Response) (req : Request) (db : DB) :
  headers_authorization req = None ->
  auth X req db = (Ok (Respond (status_json 401 (message "No token"))), db) /\
  protected X handler req db = (Ok (status_json 401 (message "No token")), db).
Proof.
  intros H.
  assert (A : auth X req db = (Ok (Respond (status_json 401 (message "No token"))), db))
    by (unfold auth; now rewrite H).
  split; [exact A | now apply protected_respond].
Qed.

(** C3: when the header carries a token on which [jwt.verify] throws (or no
    second word at all), the gate answers 401 [{message: "Invalid token"}];
    the exception ends in that response, not in a thrown result, and the
    handler is not run. *)
Theorem auth_invalid_token (handler : Request -> M Response) (req : Request) (db : DB)
    (header : string) :
  headers_authorization req = Some header ->
  header <> "" ->
  verification_fails X header ->
  auth X req db = (Ok (Respond (status_json 401 (message "Invalid token"))), db) /\
  protected X handler req db = (Ok (status_json 401 (message "Invalid token")), db).
Proof.
  intros H NE V.
  assert (A : auth X req db
              = (Ok (Respond (status_json 401 (message "Invalid token"))), db)).
  { unfold auth. rewrite H. destruct header as [|c h]; [congruence|].
    unfold verification_fails in V. run.
    destruct (nth_error (split_space _) 1) as [t|]; [|reflexivity].
    destruct V as [e ->]. reflexivity. }
  split; [exact A | now apply protected_respond].
Qed.

(** C9: a token that verifies but whose identifier matches no stored user
    does not make the gate fail: it sets [req.user] to null and hands the
    request to the next stage, once, with the database untouched. *)
Theorem auth_deleted_user (handler : Request -> M Response) (req : Request) (db : DB)
    (header t : string) (decoded : Payload) :
  headers_authorization req = Some header ->
  header <> "" ->
  nth_error (split_space header) 1 = Some t ->
  jwt_verify X t (JWT_SECRET X) = Ok decoded ->
  (forall u, In u (users db) -> u_id u <> id decoded) ->
  auth X req db = (Ok (Next (set_user req None)), db) /\
  protected X handler req db = handler (set_user req None) db.
Proof.
  intros H NE T V Gone.
  assert (A : auth X req db = (Ok (Next (set_user req None)), db)).
  { unfold auth. rewrite H. destruct header as [|c h]; [congruence|].
    run. rewrite T, V. unfold User_findById_select; simpl.
    destruct (find _ (users db)) as [u|] eqn:F; [|reflexivity].
    apply find_some in F. destruct F as [I E].
    apply N.eqb_eq in E. now destruct (Gone u I). }
  split; [exact A | now apply protected_next].
Qed.

End Gate.

(** ** Connection requests *)

Section Connections.

Variable X : Externals.

Lemma same_pair_iff (s r : ObjectId) (c : ConnectionRequest) :
  same_pair s r c = true <-> sender c = s /\ receiver c = r.
Proof.
  unfold same_pair. rewrite andb_true_iff, !N.eqb_eq. tauto.
Qed.

Lemma find_pair_absent (s r : ObjectId) (db : DB) :
  pair_absent s r db -> find (same_pair s r) (connectionrequests db) = None.
Proof.
  intros A. destruct (find _ _) as [c|] eqn:F; [|reflexivity].
  apply find_some in F. destruct F as [I P].
  apply same_pair_iff in P. now destruct (A c I).
Qed.

Lemma find_pair_present (s r : ObjectId) (l : list ConnectionRequest) c :
  In c l -> sender c = s -> receiver c = r ->
  exists c', find (same_pair s r) l = Some c'.
Proof.
  intros I S R. destruct (find (same_pair s r) l) as [c'|] eqn:F; [eauto|].
  pose proof (find_none _ _ F c I) as Miss.
  assert (same_pair s r c = true) by (apply same_pair_iff; tauto). congruence.
Qed.

(** What the handler does once the gate has attached principal [a]. *)
Lemma connections_request_present (req : Request) (db : DB) (a : User) b c :
  castObjectId X (params_id req) = Some b ->
  find (same_pair (u_id a) b) (connectionrequests db) = Some c ->
  connections_request X (set_user req (Some a)) db
  = (Ok (status_json 400 (message "Already sent")), db).
Proof.
  intros C F. unfold connections_request, user_id, ConnectionRequest_findOne. run.
  simpl. rewrite C, F. reflexivity.
Qed.

Lemma connections_request_absent (req : Request) (db : DB) (a : User) b :
  castObjectId X (params_id req) = Some b ->
  find (same_pair (u_id a) b) (connectionrequests db) = None ->
  let c := mkConnectionRequest (next_oid db) (u_id a) b "pending" in
  connections_request X (set_user req (Some a)) db
  = (Ok (json (ConnectionRequest_toJSON c)),
     mkDB (users db) (connectionrequests db ++ [c]) (jobs db) (N.succ (next_oid db))).
Proof.
  intros C F. unfold connections_request, user_id, ConnectionRequest_findOne,
    ConnectionRequest_create. run.
  simpl. rewrite C, F. reflexivity.
Qed.

(** C1: with the sender authenticated and the path parameter naming [b],
    (i) whenever the collection holds a request with the same ordered pair,
    of any status, the route answers 400 [{message: "Already sent"}] and
    stores nothing; (ii) when it holds none, the first call answers with the
    created pending request, stored as the one new document, and the second
    identical call answers 400 [{message: "Already sent"}] and stores
    nothing. *)
Theorem request_connection_twice (req : Request) (db : DB) (a : User) (b : ObjectId) :
  authenticated_as X req db a ->
  castObjectId X (params_id req) = Some b ->
  (forall c, In c (connectionrequests db) -> sender c = u_id a -> receiver c = b ->
     POST_connections_request X req db
     = (Ok (status_json 400 (message "Already sent")), db))
  /\
  (pair_absent (u_id a) b db ->
   exists c db1,
     POST_connections_request X req db = (Ok (json (ConnectionRequest_toJSON c)), db1) /\
     sender c = u_id a /\ receiver c = b /\ status c = "pending" /\
     connectionrequests db1 = (connectionrequests db ++ [c])%list /\
     users db1 = users db /\ jobs db1 = jobs db /\
     POST_connections_request X req db1
     = (Ok (status_json 400 (message "Already sent")), db1)).
Proof.
  intros A C. unfold POST_connections_request. split.
  - intros c I S R.
    rewrite (protected_next X _ _ _ _ A).
    destruct (find_pair_present (u_id a) b _ c I S R) as [c' F].
    eapply connections_request_present; eauto.
  - intros P.
    pose (c := mkConnectionRequest (next_oid db) (u_id a) b "pending").
    pose (db1 := mkDB (users db) (connectionrequests db ++ [c]) (jobs db)
                      (N.succ (next_oid db))).
    exists c, db1.
    rewrite (protected_next X _ _ _ _ A).
    rewrite (connections_request_absent req db a b C (find_pair_absent _ _ _ P)).
    repeat split.
    assert (A1 : authenticated_as X req db1 a)
      by (apply (authenticated_frame X req db db1 a); [reflexivity | exact A]).
    rewrite (protected_next X _ _ _ _ A1).
    destruct (find_pair_present (u_id a) b (connectionrequests db1) c) as [c' F];
      try reflexivity.
    { simpl. apply in_or_app. right. now left. }
    eapply connections_request_present; eauto.
Qed.

(** C8: a request from [b] to [a] is accepted and stored although the
    collection holds a request from [a] to [b]; only a request with sender
    [b] and receiver [a] would block it. *)
Theorem inverse_request_permitted (req : Request) (db : DB) (b : User) (a : ObjectId) :
  authenticated_as X req db b ->
  castObjectId X (params_id req) = Some a ->
  (exists c0, In c0 (connectionrequests db) /\ sender c0 = a /\ receiver c0 = u_id b) ->
  pair_absent (u_id b) a db ->
  exists c db1,
    POST_connections_request X req db = (Ok (json (ConnectionRequest_toJSON c)), db1) /\
    sender c = u_id b /\ receiver c = a /\ status c = "pending" /\
    connectionrequests db1 = (connectionrequests db ++ [c])%list.
Proof.
  intros A C _ P. unfold POST_connections_request.
  rewrite (protected_next X _ _ _ _ A).
  rewrite (connections_request_absent req db b a C (find_pair_absent _ _ _ P)).
  do 2 eexists. repeat split.
Qed.

End Connections.

(** ** Job applications *)

Section Jobs.

Variable X : Externals.

Lemma existsb_eqb_In (u : ObjectId) (l : list ObjectId) :
  existsb (N.eqb u) l = true <-> In u l.
Proof.
  rewrite existsb_exists. split.
  - intros (x & I & E). apply N.eqb_eq in E. now subst.
  - intros I. exists u. split; [exact I | apply N.eqb_refl].
Qed.

Lemma addToSet_In (u : ObjectId) (l : list ObjectId) : In u (addToSet u l).
Proof.
  unfold addToSet. destruct (existsb (N.eqb u) l) eqn:E.
  - now apply existsb_eqb_In.
  - apply in_or_app. right. now left.
Qed.

Lemma addToSet_idempotent (u : ObjectId) (l : list ObjectId) :
  addToSet u (addToSet u l) = addToSet u l.
Proof.
  unfold addToSet at 1.
  now rewrite (proj2 (existsb_eqb_In u _) (addToSet_In u l)).
Qed.

Lemma addToSet_count (u : ObjectId) (l : list ObjectId) :
  count_occ N.eq_dec (addToSet u l) u = Nat.max 1 (count_occ N.eq_dec l u).
Proof.
  unfold addToSet, ObjectId in *. destruct (existsb (N.eqb u) l) eqn:E.
  - apply existsb_eqb_In in E. apply (count_occ_In N.eq_dec) in E. lia.
  - assert (Out : ~ In u l) by (rewrite <- existsb_eqb_In; congruence).
    apply (count_occ_not_In N.eq_dec) in Out.
    rewrite count_occ_app, Out. simpl.
    destruct (N.eq_dec u u); [reflexivity | congruence].
Qed.

Lemma addToSet_NoDup (u : ObjectId) (l : list ObjectId) :
  NoDup l -> NoDup (addToSet u l).
Proof.
  intros D. unfold addToSet. destruct (existsb (N.eqb u) l) eqn:E; [exact D|].
  assert (Out : ~ In u l) by (rewrite <- existsb_eqb_In; congruence).
  apply NoDup_app; [exact D | repeat constructor; intros [] | ].
  intros x I [<-|[]]. now apply Out.
Qed.

Lemma update_first_idempotent (i u : ObjectId) (l : list Job) :
  update_first i u (update_first i u l) = update_first i u l.
Proof.
  induction l as [|j rest IH]; simpl; [reflexivity|].
  destruct (N.eqb (j_id j) i) eqn:E; simpl; rewrite E.
  - now rewrite addToSet_idempotent.
  - now rewrite IH.
Qed.

Lemma update_first_found (i u : ObjectId) (l : list Job) (jb : Job) :
  find (fun j => N.eqb (j_id j) i) l = Some jb ->
  exists jb1,
    find (fun j => N.eqb (j_id j) i) (update_first i u l) = Some jb1 /\
    applicants jb1 = addToSet u (applicants jb) /\ j_id jb1 = j_id jb /\
    title jb1 = title jb /\ company jb1 = company jb.
Proof.
  induction l as [|j rest IH]; simpl; [discriminate|].
  destruct (N.eqb (j_id j) i) eqn:E; simpl; rewrite E.
  - intros [= <-]. eexists; repeat split.
  - exact IH.
Qed.

Lemma jobs_apply_run (req : Request) (db : DB) (a : User) (j : ObjectId) :
  castObjectId X (params_id req) = Some j ->
  jobs_apply X (set_user req (Some a)) db
  = (Ok (json (message "Applied")),
     mkDB (users db) (connectionrequests db) (update_first j (u_id a) (jobs db))
          (next_oid db)).
Proof.
  intros C. unfold jobs_apply, user_id, Job_findByIdAndUpdate_addToSet. run.
  simpl. now rewrite C.
Qed.

(** C10, as the code has it: for an authenticated user and a path parameter
    naming job [j], every call answers [{message: "Applied"}]; the second
    identical call leaves the database exactly as the first left it; the
    job's applicants then contain the user, as often as before the first
    call if that was at least once and once otherwise: the call never adds
    a duplicate, and a list without duplicates stays so. *)
Theorem apply_idempotent (req : Request) (db : DB) (a : User) (j : ObjectId) :
  authenticated_as X req db a ->
  castObjectId X (params_id req) = Some j ->
  exists db1,
    POST_jobs_apply X req db = (Ok (json (message "Applied")), db1) /\
    POST_jobs_apply X req db1 = (Ok (json (message "Applied")), db1) /\
    (forall jb, Job_findById j db = Some jb ->
       exists jb1,
         Job_findById j db1 = Some jb1 /\
         applicants jb1 = addToSet (u_id a) (applicants jb) /\
         In (u_id a) (applicants jb1) /\
         count_occ N.eq_dec (applicants jb1) (u_id a)
         = Nat.max 1 (count_occ N.eq_dec (applicants jb) (u_id a)) /\
         (NoDup (applicants jb) -> NoDup (applicants jb1))).
Proof.
  intros A C.
  pose (db1 := mkDB (users db) (connectionrequests db)
                    (update_first j (u_id a) (jobs db)) (next_oid db)).
  assert (A1 : authenticated_as X req db1 a)
    by (apply (authenticated_frame X req db db1 a); [reflexivity | exact A]).
  exists db1. unfold POST_jobs_apply.
  rewrite (protected_next X _ _ _ _ A), (protected_next X _ _ _ _ A1).
  rewrite !(jobs_apply_run _ _ _ j C).
  split; [reflexivity|]. split.
  - unfold db1; simpl. now rewrite update_first_idempotent.
  - intros jb F. unfold Job_findById in *.
    destruct (update_first_found j (u_id a) (jobs db) jb F) as (jb1 & F1 & E & _).
    exists jb1. split; [exact F1|]. rewrite E.
    repeat split.
    + apply addToSet_In.
    + apply addToSet_count.
    + apply addToSet_NoDup.
Qed.

End Jobs.

(** ** Accounts *)

Section Accounts.

Variable X : Externals.

Lemma opt_eqb_eq (a b : option string) : opt_eqb a b = true <-> a = b.
Proof.
  destruct a as [x|], b as [y|]; simpl; try (split; congruence).
  rewrite String.eqb_eq. split; congruence.
Qed.

Lemma find_email_absent (e : option string) (l : list User) :
  (forall u, In u l -> email u <> e) ->
  find (has_email e) l = None /\ existsb (has_email e) l = false.
Proof.
  intros A. split.
  - destruct (find _ l) as [u|] eqn:F; [|reflexivity].
    apply find_some in F. destruct F as [I E]. apply opt_eqb_eq in E.
    now destruct (A u I).
  - apply not_true_is_false. rewrite existsb_exists. intros (u & I & E).
    apply opt_eqb_eq in E. now destruct (A u I).
Qed.

Lemma find_email_present (e : option string) (l : list User) :
  (exists u, In u l /\ email u = e) ->
  exists u, find (has_email e) l = Some u.
Proof.
  intros (u & I & E).
  destruct (find (has_email e) l) as [u'|] eqn:F; [eauto|].
  pose proof (find_none _ _ F u I) as Miss. unfold has_email in Miss.
  rewrite (proj2 (opt_eqb_eq _ _) E) in Miss. discriminate.
Qed.

(** C4, as the code has it: registering an email that a stored user has is
    answered 400 [{message: "Email already exists"}] and stores nothing;
    registering an email no stored user has, with a password in the body,
    stores one new user with the given name and email and answers 200 with
    a body whose [token] field is a token that [jwt.verify] decodes to
    exactly that user's identifier and whose [user] field is that user. *)
Theorem register_conflict_or_token (req : Request) (db : DB) (e : string) :
  jwt_round_trip X ->
  b_email (body req) = Some e ->
  ((exists u, In u (users db) /\ email u = Some e) ->
   register X req db = (Ok (status_json 400 (message "Email already exists")), db))
  /\
  (forall pw,
   b_password (body req) = Some pw ->
   (forall u, In u (users db) -> email u <> Some e) ->
   exists token u r db1,
     register X req db = (Ok r, db1) /\
     code r = 200%N /\
     field "token" (payload r) = Some (JStr token) /\
     field "user" (payload r) = Some (User_toJSON u) /\
     users db1 = (users db ++ [u])%list /\
     name u = b_name (body req) /\ email u = Some e /\
     password u = Some (bcrypt_hash X pw 10) /\
     jwt_verify X token (JWT_SECRET X) = Ok (mkPayload (u_id u))).
Proof.
  intros RT Em. split.
  - intros P. destruct (find_email_present _ _ P) as [u F].
    unfold register, User_findOne. run. now rewrite Em, F.
  - intros pw Pw A. destruct (find_email_absent _ _ A) as [F E].
    destruct (RT (mkPayload (next_oid db))) as (t & Sg & Vf).
    exists t. unfold register, User_findOne, User_create. run.
    rewrite Em, Pw, F, E. cbn [u_id]. rewrite Sg.
    do 3 eexists. split; [reflexivity|]. simpl. repeat split. exact Vf.
Qed.

(** C5, as the code has it: a login with an email no stored user has is
    answered 400 [{message: "Invalid email"}]; a login with the email of a
    stored user whose hash does not match the password is answered 400
    [{message: "Wrong password"}].  Both leave the database untouched; the
    status is the same and the message tells the two cases apart. *)
Theorem login_failures (req : Request) (db : DB) (e : string) :
  b_email (body req) = Some e ->
  ((forall u, In u (users db) -> email u <> Some e) ->
   login X req db = (Ok (status_json 400 (message "Invalid email")), db))
  /\
  (forall u h pw,
     find (has_email (Some e)) (users db) = Some u ->
     password u = Some h ->
     b_password (body req) = Some pw ->
     bcrypt_compareSync X pw h = false ->
     login X req db = (Ok (status_json 400 (message "Wrong password")), db))
  /\
  status_json 400 (message "Invalid email") <> status_json 400 (message "Wrong password").
Proof.
  intros Em. split; [|split].
  - intros A. destruct (find_email_absent _ _ A) as [F _].
    unfold login, User_findOne. run. now rewrite Em, F.
  - intros u h pw F P Pw W. unfold login, User_findOne. run.
    now rewrite Em, F, Pw, P, W.
  - discriminate.
Qed.

End Accounts.

(** ** User search *)

Section UserSearch.

Variable X : Externals.

Lemma auth_next_shape (req req' : Request) (db : DB) :
  auth X req db = (Ok (Next req'), db) -> exists u, req' = set_user req u.
Proof.
  unfold auth.
  destruct (headers_authorization req) as [[|c h]|]; try discriminate.
  run.
  destruct (nth_error (split_space _) 1) as [t|];
    [destruct (jwt_verify X t (JWT_SECRET X))|]; try discriminate.
  unfold User_findById_select. intros [= <-]. eauto.
Qed.

Lemma users_all_run (req : Request) (db : DB) (test : string -> bool) :
  regex X (query_or_empty req) "i" = Some test ->
  users_all X req db
  = (Ok (json (JArr (map User_toJSON (filter (name_matches test) (users db))))),
     db).
Proof.
  intros R. unfold users_all, User_find_regex. run. now rewrite R.
Qed.

Lemma split_bearer (token : string) :
  no_space token = true ->
  nth_error (split_space ("Bearer " ++ token)) 1 = Some token.
Proof.
  intros H.
  assert (W : forall s, no_space s = true -> split_space s = [s]).
  { induction s as [|c r IH]; [reflexivity|].
    unfold no_space; simpl. rewrite andb_true_iff, negb_true_iff.
    intros [-> NS]. now rewrite (IH NS). }
  simpl. now rewrite (W token H).
Qed.

(** C7, as the code has it: behind the gate, [q] (the empty string when
    absent) is handed to the store as a regular expression with option [i].
    When the store accepts it, the answer is the array, in collection
    order, of exactly the stored users whose name the expression matches;
    when [q] has no metacharacter, those are the users whose name contains
    [q] as a substring, letter case ignored. *)
Theorem users_all_regex (req req' : Request) (db : DB) :
  auth X req db = (Ok (Next req'), db) ->
  (forall test, regex X (query_or_empty req) "i" = Some test ->
     GET_users_all X req db
     = (Ok (json (JArr (map User_toJSON
                          (filter (name_matches test) (users db))))), db))
  /\
  (regex_literal X -> literal (query_or_empty req) = true ->
     GET_users_all X req db
     = (Ok (json (JArr (map User_toJSON
                          (filter (name_matches (ci_contains (query_or_empty req)))
                                  (users db))))), db)).
Proof.
  intros A. unfold GET_users_all. rewrite (protected_next X _ _ _ _ A).
  destruct (auth_next_shape _ _ _ A) as [u ->].
  assert (Q : query_or_empty (set_user req u) = query_or_empty req) by reflexivity.
  split.
  - intros test R. apply users_all_run. now rewrite Q.
  - intros L Lit. destruct (L _ Lit) as (test & R & T).
    rewrite (users_all_run _ db test) by now rewrite Q.
    do 5 f_equal. apply filter_ext. intros v. unfold name_matches.
    destruct (name v); [apply T | reflexivity].
Qed.

(** C6, the scenario run on the code: alice registers on an empty database
    and searches for [ali] with the token she received.  The answer is the
    array holding her record and no other; that record carries the
    [password] field, with the stored hash as its value. *)
Theorem users_all_scenario (pw : string) (test : string -> bool) :
  jwt_round_trip X ->
  jwt_one_word X ->
  regex X "ali" "i" = Some test ->
  test "alice" = true ->
  exists token u db1,
    register X (credentials "alice" "alice@x.com" pw) empty_db
    = (Ok (json (token_and_user token u)), db1) /\
    GET_users_all X (request (Some ("Bearer " ++ token)) (Some "ali") "") db1
    = (Ok (json (JArr [User_toJSON u])), db1) /\
    name u = Some "alice" /\
    field "password" (User_toJSON u) = Some (JStr (bcrypt_hash X pw 10)) /\
    has_key "password" (User_toJSON u) = true.
Proof.
  intros RT NS R T.
  pose (u := mkUser 0%N (Some "alice") (Some "alice@x.com")
                    (Some (bcrypt_hash X pw 10)) None [] []).
  destruct (RT (mkPayload 0%N)) as (token & Sg & Vf).
  exists token, u, (mkDB [u] [] [] 1%N).
  split.
  { unfold register, User_findOne, User_create, credentials, empty_db. run.
    simpl. now rewrite Sg. }
  split; [|repeat split].
  unfold GET_users_all, protected, auth, request. run.
  cbn [headers_authorization].
  change ("Bearer " ++ token) with (String "B" ("earer " ++ token)).
  cbv beta iota.
  change (String "B" ("earer " ++ token)) with ("Bearer " ++ token).
  rewrite (split_bearer token (NS _ _ Sg)), Vf.
  unfold User_findById_select. simpl.
  unfold users_all, User_find_regex. run.
  change (query_or_empty (set_user _ _)) with "ali". rewrite R.
  unfold name_matches. simpl. now rewrite T.
Qed.

End UserSearch.

(** ** The sample collaborators have the assumed properties *)

Module SampleFacts.

Lemma strip_prefix_app (p s : string) : Sample.strip_prefix p (p ++ s) = Some s.
Proof.
  induction p as [|c p IH]; simpl; [reflexivity|].
  now rewrite Ascii.eqb_refl.
Qed.

Lemma parse_oid_hex (n : ObjectId) : Sample.parse_oid (HexString.of_N n) = Some n.
Proof.
  unfold Sample.parse_oid. now rewrite HexString.to_N_of_N, String.eqb_refl.
Qed.

Lemma jwt_round_trip_holds : jwt_round_trip Sample.externals.
Proof.
  intros [i]. eexists. split; [reflexivity|].
  simpl. unfold Sample.verify, Sample.sign. simpl.
  change (Sample.strip_prefix "" (HexString.of_N i)) with (Some (HexString.of_N i)).
  now rewrite parse_oid_hex.
Qed.

Lemma no_space_app (a b : string) :
  no_space (a ++ b) = no_space a && no_space b.
Proof.
  unfold no_space. induction a as [|c a IH]; simpl; [reflexivity|].
  now rewrite IH, andb_assoc.
Qed.

Lemma no_space_hex_digits : forall (p : positive) (rest : string),
  no_space rest = true -> no_space (HexString.Raw.of_pos p rest) = true.
Proof.
  fix IH 1. intros p rest H.
  do 4 try destruct p as [p|p|]; cbn [HexString.Raw.of_pos];
    try (apply IH); unfold no_space; cbn; exact H.
Qed.

Lemma jwt_one_word_holds : jwt_one_word Sample.externals.
Proof.
  intros [i] t. simpl. intros [= <-].
  unfold Sample.sign. rewrite !no_space_app. simpl.
  destruct i as [|p]; [reflexivity|].
  unfold HexString.of_N, HexString.of_pos.
  change (no_space (String "0" (String "x" (HexString.Raw.of_pos p ""))))
    with (no_space (HexString.Raw.of_pos p "")).
  now apply no_space_hex_digits.
Qed.

Lemma literal_cons (c : ascii) (q : string) :
  literal (String c q) = true ->
  Ascii.eqb c "."%char = false /\ literal q = true.
Proof.
  unfold literal; simpl. rewrite andb_true_iff, negb_true_iff. intros [M L].
  split; [|exact L].
  destruct (Ascii.eqb c ".") eqn:E; [|reflexivity].
  apply Ascii.eqb_eq in E. subst c. discriminate.
Qed.

Lemma literal_supported (q : string) : literal q = true -> Sample.supported q = true.
Proof.
  unfold literal, Sample.supported. rewrite !forallb_forall.
  intros H c I. now rewrite (H c I).
Qed.

Lemma match_here_literal (q s : string) :
  literal q = true -> Sample.match_here true q s = is_prefix (lower q) (lower s).
Proof.
  revert s. induction q as [|c q IH]; intros s L; [reflexivity|].
  destruct (literal_cons c q L) as [D L'].
  destruct s as [|d s]; [reflexivity|]. simpl.
  unfold Sample.match_char. now rewrite D, (IH s L').
Qed.

Lemma search_literal (q s : string) :
  literal q = true -> Sample.search true q s = ci_contains q s.
Proof.
  intros L. unfold ci_contains.
  induction s as [|d s IH].
  - simpl. now rewrite (match_here_literal q "" L).
  - change (Sample.search true q (String d s))
      with (Sample.match_here true q (String d s) || Sample.search true q s).
    rewrite IH, (match_here_literal q _ L). reflexivity.
Qed.

Lemma regex_literal_holds : regex_literal Sample.externals.
Proof.
  intros q L. simpl. unfold Sample.compile. rewrite (literal_supported q L).
  eexists. split; [reflexivity|].
  intros s. now apply search_literal.
Qed.

End SampleFacts.

(** ** Sample runs

    The theorems above applied to the sample collaborators, database and
    requests: alice holds the token [s3cret.0x1], bob [s3cret.0x2]. *)

Lemma auth_no_header_witness :
  protected Sample.externals (users_all Sample.externals)
    (request None (Some "ali") "") Sample.db0
  = (Ok (status_json 401 (message "No token")), Sample.db0).
Proof.
  apply (auth_no_header Sample.externals (users_all Sample.externals)
           (request None (Some "ali") "") Sample.db0).
  reflexivity.
Defined.

Lemma auth_invalid_token_witness :
  protected Sample.externals (users_all Sample.externals)
    (request (Some "Bearer other.0x1") None "") Sample.db0
  = (Ok (status_json 401 (message "Invalid token")), Sample.db0).
Proof.
  apply (auth_invalid_token Sample.externals (users_all Sample.externals)
           (request (Some "Bearer other.0x1") None "") Sample.db0
           "Bearer other.0x1").
  - reflexivity.
  - discriminate.
  - vm_compute. exists JsonWebTokenError. reflexivity.
Defined.

Lemma auth_deleted_user_witness :
  auth Sample.externals (request (Some "Bearer s3cret.0x5") None "") Sample.db0
  = (Ok (Next (set_user (request (Some "Bearer s3cret.0x5") None "") None)),
     Sample.db0).
Proof.
  apply (auth_deleted_user Sample.externals (users_all Sample.externals)
           (request (Some "Bearer s3cret.0x5") None "") Sample.db0
           "Bearer s3cret.0x5" "s3cret.0x5" (mkPayload 5%N)).
  - reflexivity.
  - discriminate.
  - reflexivity.
  - reflexivity.
  - simpl. intros u [<-|[<-|[<-|[]]]]; discriminate.
Defined.

Lemma request_connection_twice_witness :
  exists c db1,
    POST_connections_request Sample.externals
      (request (Some "Bearer s3cret.0x1") None "0x2") Sample.db0
    = (Ok (json (ConnectionRequest_toJSON c)), db1) /\
    sender c = 1%N /\ receiver c = 2%N /\ status c = "pending" /\
    connectionrequests db1 = [c] /\
    POST_connections_request Sample.externals
      (request (Some "Bearer s3cret.0x1") None "0x2") db1
    = (Ok (status_json 400 (message "Already sent")), db1).
Proof.
  destruct (request_connection_twice Sample.externals
              (request (Some "Bearer s3cret.0x1") None "0x2") Sample.db0
              (select_minus_password Sample.alice) 2%N) as [_ Twice].
  - reflexivity.
  - reflexivity.
  - destruct Twice as (c & db1 & R1 & S & R & P & L & _ & _ & R2).
    + intros c [].
    + exists c, db1. repeat split; assumption.
Defined.

Lemma inverse_request_permitted_witness :
  exists c db1,
    POST_connections_request Sample.externals
      (request (Some "Bearer s3cret.0x2") None "0x1") Sample.db_ab
    = (Ok (json (ConnectionRequest_toJSON c)), db1) /\
    sender c = 2%N /\ receiver c = 1%N /\ status c = "pending" /\
    connectionrequests db1 = [Sample.a_to_b; c].
Proof.
  apply (inverse_request_permitted Sample.externals
           (request (Some "Bearer s3cret.0x2") None "0x1") Sample.db_ab
           (select_minus_password Sample.bob) 1%N).
  - reflexivity.
  - reflexivity.
  - exists Sample.a_to_b. simpl. repeat split. now left.
  - intros c [<-|[]] [H _]. discriminate.
Defined.

Lemma apply_idempotent_witness :
  exists db1,
    POST_jobs_apply Sample.externals
      (request (Some "Bearer s3cret.0x1") None "0x7") Sample.db0
    = (Ok (json (message "Applied")), db1) /\
    POST_jobs_apply Sample.externals
      (request (Some "Bearer s3cret.0x1") None "0x7") db1
    = (Ok (json (message "Applied")), db1).
Proof.
  destruct (apply_idempotent Sample.externals
              (request (Some "Bearer s3cret.0x1") None "0x7") Sample.db0
              (select_minus_password Sample.alice) 7%N) as (db1 & R1 & R2 & _).
  - reflexivity.
  - reflexivity.
  - exists db1. split; assumption.
Defined.

Lemma register_conflict_or_token_witness :
  register Sample.externals (credentials "al" "alice@x.com" "pw9") Sample.db0
  = (Ok (status_json 400 (message "Email already exists")), Sample.db0)
  /\
  exists token u r db1,
    register Sample.externals (credentials "carol" "carol@x.com" "pw4") Sample.db0
    = (Ok r, db1) /\
    code r = 200%N /\
    field "token" (payload r) = Some (JStr token) /\
    field "user" (payload r) = Some (User_toJSON u) /\
    users db1 = [Sample.alice; Sample.bob; Sample.abc; u] /\
    name u = Some "carol" /\ email u = Some "carol@x.com" /\
    password u = Some "$2a$pw4" /\
    Sample.verify token "s3cret" = Ok (mkPayload (u_id u)).
Proof.
  split.
  - apply (register_conflict_or_token Sample.externals
             (credentials "al" "alice@x.com" "pw9") Sample.db0 "alice@x.com"
             SampleFacts.jwt_round_trip_holds eq_refl).
    exists Sample.alice. split; [now left | reflexivity].
  - apply (proj2 (register_conflict_or_token Sample.externals
                    (credentials "carol" "carol@x.com" "pw4") Sample.db0
                    "carol@x.com" SampleFacts.jwt_round_trip_holds eq_refl)
             "pw4" eq_refl).
    simpl. intros u [<-|[<-|[<-|[]]]]; discriminate.
Defined.

(** C4, the claim as written fails: a registration with an email no stored
    user has, and no password in the body, does not succeed; it is answered
    500 [{message: "Server error"}] and stores nothing. *)
Lemma register_without_password_fails :
  (forall u, In u (users Sample.db0) -> email u <> Some "carol@x.com") /\
  register Sample.externals (no_password "carol" "carol@x.com") Sample.db0
  = (Ok (status_json 500 (message "Server error")), Sample.db0).
Proof.
  split; [|reflexivity].
  simpl. intros u [<-|[<-|[<-|[]]]]; discriminate.
Qed.

Lemma login_failures_witness :
  login Sample.externals (credentials "" "alice@x.com" "pw2") Sample.db0
  = (Ok (status_json 400 (message "Wrong password")), Sample.db0).
Proof.
  apply (proj1 (proj2 (login_failures Sample.externals
                         (credentials "" "alice@x.com" "pw2") Sample.db0
                         "alice@x.com" eq_refl))
           Sample.alice "$2a$pw1" "pw2"); reflexivity.
Defined.

Lemma users_all_regex_witness :
  GET_users_all Sample.externals
    (request (Some "Bearer s3cret.0x1") (Some "AL") "") Sample.db0
  = (Ok (json (JArr (map User_toJSON
                       (filter (name_matches (ci_contains "AL"))
                               (users Sample.db0))))), Sample.db0).
Proof.
  apply (users_all_regex Sample.externals
           (request (Some "Bearer s3cret.0x1") (Some "AL") "")
           (set_user (request (Some "Bearer s3cret.0x1") (Some "AL") "")
                     (Some (select_minus_password Sample.alice)))
           Sample.db0).
  - reflexivity.
  - exact SampleFacts.regex_literal_holds.
  - reflexivity.
Defined.

Lemma users_all_scenario_witness :
  exists token u db1,
    register Sample.externals (credentials "alice" "alice@x.com" "pw1") empty_db
    = (Ok (json (token_and_user token u)), db1) /\
    GET_users_all Sample.externals
      (request (Some ("Bearer " ++ token)) (Some "ali") "") db1
    = (Ok (json (JArr [User_toJSON u])), db1) /\
    name u = Some "alice" /\
    field "password" (User_toJSON u) = Some (JStr "$2a$pw1") /\
    has_key "password" (User_toJSON u) = true.
Proof.
  apply (users_all_scenario Sample.externals "pw1"
           (Sample.search true "ali")
           SampleFacts.jwt_round_trip_holds SampleFacts.jwt_one_word_holds).
  - reflexivity.
  - reflexivity.
Defined.

(** C5, the claim as written fails: on the sample database a login with an
    unknown email and a login with alice's email and a wrong password are
    both answered 400, with different bodies. *)
Lemma login_failure_reveals_case :
  exists r1 r2,
    login Sample.externals (credentials "" "zed@x.com" "pw1") Sample.db0
    = (Ok r1, Sample.db0) /\
    login Sample.externals (credentials "" "alice@x.com" "pw2") Sample.db0
    = (Ok r2, Sample.db0) /\
    code r1 = 400%N /\ code r2 = 400%N /\ r1 <> r2.
Proof.
  do 2 eexists. repeat split; try reflexivity. discriminate.
Qed.

(** C7, the claim as written fails: alice searches with [q = "a.c"]; the
    answer holds the user named [abc], whose name does not contain [a.c];
    no stored name does. *)
Lemma users_all_pattern_not_substring :
  GET_users_all Sample.externals
    (request (Some "Bearer s3cret.0x1") (Some "a.c") "") Sample.db0
  = (Ok (json (JArr [User_toJSON Sample.abc])), Sample.db0) /\
  name Sample.abc = Some "abc" /\
  ci_contains "a.c" "abc" = false /\
  GET_users_all Sample.externals
    (request (Some "Bearer s3cret.0x1") (Some "a.c") "") Sample.db0
  <> (Ok (json (JArr (map User_toJSON
                        (filter (name_matches (ci_contains "a.c"))
                                (users Sample.db0))))), Sample.db0).
Proof.
  repeat split. discriminate.
Qed.

(** * Further properties of the routes *)

(** ** The gate, continued *)

Section GateMore.

Variable X : Externals.

Lemma auth_passes (req : Request) (db : DB) (header t : string)
    (decoded : Payload) (stored : User) :
  headers_authorization req = Some header ->
  header <> "" ->
  nth_error (split_space header) 1 = Some t ->
  jwt_verify X t (JWT_SECRET X) = Ok decoded ->
  find (fun u => N.eqb (u_id u) (id decoded)) (users db) = Some stored ->
  authenticated_as X req db (select_minus_password stored).
Proof.
  intros H NE T V F. unfold authenticated_as, auth. rewrite H.
  destruct header as [|c h]; [congruence|].
  run. rewrite T, V. unfold User_findById_select. now rewrite F.
Qed.

(** The gate reads the second word of the header and nothing else of it:
    whatever the first word is, when the second verifies to the [_id] of a
    stored user the request goes on with that user, its secret removed. *)
Theorem auth_accepts (req : Request) (db : DB) (header t : string)
    (decoded : Payload) (stored : User) :
  headers_authorization req = Some header ->
  header <> "" ->
  nth_error (split_space header) 1 = Some t ->
  jwt_verify X t (JWT_SECRET X) = Ok decoded ->
  find (fun u => N.eqb (u_id u) (id decoded)) (users db) = Some stored ->
  authenticated_as X req db (select_minus_password stored) /\
  u_id stored = id decoded.
Proof.
  intros H NE T V F. split.
  - now apply (auth_passes req db header t decoded stored).
  - apply find_some in F. now apply N.eqb_eq.
Qed.

(** Whenever the gate calls [next], the database is as before, the request
    differs from the incoming one in [req.user] only, and a principal it
    attached is a stored user whose JSON has no [password] key. *)
Theorem auth_principal_without_password (req req' : Request) (db db' : DB) :
  auth X req db = (Ok (Next req'), db') ->
  db' = db /\
  headers_authorization req' = headers_authorization req /\
  body req' = body req /\ query_q req' = query_q req /\
  params_id req' = params_id req /\
  forall p, user req' = Some p ->
    has_key "password" (User_toJSON p) = false /\
    exists stored, In stored (users db) /\ p = select_minus_password stored.
Proof.
  intros A.
  assert (D : db' = db)
    by (pose proof (auth_reads_only X req db) as R; now rewrite A in R).
  subst db'. destruct (auth_next_shape X _ _ _ A) as [u ->].
  split; [reflexivity|]. do 4 (split; [reflexivity|]).
  intros p P. simpl in P. subst u.
  destruct (authenticated_stored X req db p A) as (stored & I & ->).
  split; [|eauto].
  unfold has_key, User_toJSON. simpl.
  now destruct (name stored), (email stored), (bio stored).
Qed.

(** A null principal reaches the handlers: the two writing routes then
    throw on [req.user._id], send no response and store nothing. *)
Theorem null_principal_throws (req : Request) (db : DB) :
  auth X req db = (Ok (Next (set_user req None)), db) ->
  POST_connections_request X req db = (Threw TypeError, db) /\
  POST_jobs_apply X req db = (Threw TypeError, db).
Proof.
  intros A. unfold POST_connections_request, POST_jobs_apply.
  rewrite !(protected_next X _ _ _ _ A). split; reflexivity.
Qed.

(** A path parameter that is not an ObjectId makes the three routes that
    take one throw a CastError after the gate: no response, nothing stored. *)
Theorem bad_id_throws (req : Request) (db : DB) (a : User) :
  authenticated_as X req db a ->
  castObjectId X (params_id req) = None ->
  POST_connections_request X req db = (Threw CastError, db) /\
  POST_jobs_apply X req db = (Threw CastError, db) /\
  GET_jobs_id X req db = (Threw CastError, db).
Proof.
  intros A C. unfold POST_connections_request, POST_jobs_apply, GET_jobs_id.
  rewrite !(protected_next X _ _ _ _ A).
  unfold connections_request, jobs_apply, jobs_by_id, user_id,
    ConnectionRequest_findOne, Job_findByIdAndUpdate_addToSet,
    Job_findById_populate.
  run. simpl. now rewrite C.
Qed.

End GateMore.

(** ** What a request can do to the database *)

Section Effects.

Variable X : Externals.

Lemma protected_cases (handler : Request -> M Response) (req : Request) (db : DB) :
  (exists r, protected X handler req db = (r, db)) \/
  (exists req', auth X req db = (Ok (Next req'), db) /\
                protected X handler req db = handler req' db).
Proof.
  pose proof (auth_reads_only X req db) as R.
  unfold protected, bind, ret.
  destruct (auth X req db) as [[[r|req']|e] d]; simpl in R; subst d.
  - left. eauto.
  - right. exists req'. split; reflexivity.
  - left. eauto.
Qed.

Lemma protected_effect (handler : Request -> M Response) (req : Request) (db : DB) :
  (forall req', Effect db (snd (handler req' db))) ->
  Effect db (snd (protected X handler req db)).
Proof.
  intros H. destruct (protected_cases handler req db) as [[r ->]|(req' & _ & ->)].
  - constructor.
  - apply H.
Qed.

Lemma register_effect (req : Request) (db : DB) : Effect db (snd (register X req db)).
Proof.
  unfold register, User_findOne, User_create. run.
  destruct (match b_email (body req) with Some _ => _ | None => _ end);
    simpl; [constructor|].
  destruct (b_password (body req)) as [pw|]; simpl; [|constructor].
  destruct (existsb _ (users db)) eqn:E; simpl; [constructor|].
  destruct (jwt_sign X _ _); simpl; now apply UserAdded.
Qed.

Lemma login_reads_only (req : Request) (db : DB) : snd (login X req db) = db.
Proof.
  unfold login, User_findOne. run.
  destruct (match b_email (body req) with Some _ => _ | None => _ end) as [u|];
    simpl; [|reflexivity].
  destruct (b_password (body req)) as [pw|]; simpl; [|reflexivity].
  destruct (password u); simpl; [|reflexivity].
  destruct (bcrypt_compareSync X _ _); simpl; [|reflexivity].
  now destruct (jwt_sign X _ _).
Qed.

Lemma users_all_reads_only (req : Request) (db : DB) : snd (users_all X req db) = db.
Proof.
  unfold users_all, User_find_regex. run. now destruct (regex X _ _).
Qed.

Lemma jobs_by_id_reads_only (req : Request) (db : DB) : snd (jobs_by_id X req db) = db.
Proof.
  unfold jobs_by_id, Job_findById_populate. run. now destruct (castObjectId X _).
Qed.

Lemma connections_request_effect (req : Request) (db : DB) :
  Effect db (snd (connections_request X req db)).
Proof.
  unfold connections_request, user_id, ConnectionRequest_findOne,
    ConnectionRequest_create. run.
  destruct (user req) as [u|]; simpl; [|constructor].
  destruct (castObjectId X (params_id req)) as [r|]; simpl; [|constructor].
  destruct (find _ (connectionrequests db)) eqn:F; simpl; [constructor|].
  now apply RequestAdded.
Qed.

Lemma jobs_apply_effect (req : Request) (db : DB) :
  Effect db (snd (jobs_apply X req db)).
Proof.
  unfold jobs_apply, user_id, Job_findByIdAndUpdate_addToSet. run.
  destruct (user req) as [u|]; simpl; [|constructor].
  destruct (castObjectId X (params_id req)) as [j|]; simpl; constructor.
Qed.

Lemma app_effect (r : Route) (req : Request) (db : DB) :
  Effect db (snd (app X r req db)).
Proof.
  destruct r; simpl.
  - apply register_effect.
  - rewrite login_reads_only. constructor.
  - apply protected_effect. intros req'. rewrite users_all_reads_only. constructor.
  - apply protected_effect. intros req'. apply connections_request_effect.
  - apply protected_effect. intros req'. constructor.
  - apply protected_effect. intros req'. rewrite jobs_by_id_reads_only. constructor.
  - apply protected_effect. intros req'. apply jobs_apply_effect.
Qed.

(** Login and the three GET routes never write: whatever the request and
    whatever they answer or throw, the database is left as it was. *)
Theorem read_only_routes (r : Route) (req : Request) (db : DB) :
  reads_only r = true -> snd (app X r req db) = db.
Proof.
  destruct r; simpl; try discriminate; intros _.
  - apply login_reads_only.
  - destruct (protected_cases (users_all X) req db) as [[r E]|(req' & _ & E)];
      unfold GET_users_all; rewrite E; [reflexivity | apply users_all_reads_only].
  - destruct (protected_cases jobs_all req db) as [[r E]|(req' & _ & E)];
      unfold GET_jobs_all; rewrite E; reflexivity.
  - destruct (protected_cases (jobs_by_id X) req db) as [[r E]|(req' & _ & E)];
      unfold GET_jobs_id; rewrite E; [reflexivity | apply jobs_by_id_reads_only].
Qed.

End Effects.

(** ** Invariants kept by every route *)

Section Invariants.

Variable X : Externals.

Lemma NoDup_snoc {A : Type} (l : list A) (a : A) :
  NoDup l -> ~ In a l -> NoDup (l ++ [a]).
Proof.
  intros D Out. apply NoDup_app; [exact D | repeat constructor; intros [] |].
  intros x I [<-|[]]. now apply Out.
Qed.

Lemma update_first_ids (i u : ObjectId) (l : list Job) :
  map j_id (update_first i u l) = map j_id l.
Proof.
  induction l as [|j rest IH]; simpl; [reflexivity|].
  destruct (N.eqb (j_id j) i); simpl; [reflexivity | now rewrite IH].
Qed.

Lemma effect_emails (db db' : DB) :
  Effect db db' -> emails_unique db -> emails_unique db'.
Proof.
  unfold emails_unique. intros [|n e p E|s r F|j u] U; simpl; try exact U.
  rewrite map_app. simpl. apply NoDup_snoc; [exact U|].
  rewrite in_map_iff. intros (v & Ev & I).
  assert (T : existsb (has_email e) (users db) = true).
  { apply existsb_exists. exists v. split; [exact I|]. now apply opt_eqb_eq. }
  congruence.
Qed.

Lemma effect_pairs (db db' : DB) :
  Effect db db' -> pairs_unique db -> pairs_unique db'.
Proof.
  unfold pairs_unique. intros [|n e p E|s r F|j u] U; simpl; try exact U.
  rewrite map_app. simpl. apply NoDup_snoc; [exact U|].
  rewrite in_map_iff. intros (c & Ec & I).
  pose proof (find_none _ _ F c I) as Miss.
  unfold pair_of in Ec. injection Ec as Es Er.
  unfold same_pair in Miss. now rewrite Es, Er, !N.eqb_refl in Miss.
Qed.

Lemma effect_ids_drawn (db db' : DB) :
  Effect db db' -> user_ids_drawn db -> user_ids_drawn db'.
Proof.
  unfold user_ids_drawn. intros [|n e p E|s r F|j u] U v; simpl; try apply U.
  - rewrite in_app_iff. intros [I|[<-|[]]]; [specialize (U v I)|simpl]; lia.
  - intros I. specialize (U v I). lia.
Qed.

(** Email uniqueness is an invariant of the application: no request to any
    route can make two stored users share an email. *)
Theorem emails_stay_unique (r : Route) (req : Request) (db : DB) :
  emails_unique db -> emails_unique (snd (app X r req db)).
Proof. apply effect_emails, app_effect. Qed.

(** So is uniqueness of the ordered (sender, receiver) pair among stored
    connection requests. *)
Theorem pairs_stay_unique (r : Route) (req : Request) (db : DB) :
  pairs_unique db -> pairs_unique (snd (app X r req db)).
Proof. apply effect_pairs, app_effect. Qed.

(** No request deletes or rewrites a stored user or connection request: the
    collections only grow at the end, by at most one document; a request
    document that appears has status pending; the jobs keep their number,
    order and [_id]s. *)
Theorem routes_append_only (r : Route) (req : Request) (db : DB) :
  exists us cs,
    users (snd (app X r req db)) = (users db ++ us)%list /\
    connectionrequests (snd (app X r req db)) = (connectionrequests db ++ cs)%list /\
    (List.length us + List.length cs <= 1)%nat /\
    (forall c, In c cs -> status c = "pending") /\
    map j_id (jobs (snd (app X r req db))) = map j_id (jobs db).
Proof.
  destruct (app_effect X r req db) as [|n e p E|s r' F|j u].
  - exists [], []. rewrite !app_nil_r. repeat split; simpl; [lia | intros c []].
  - eexists [_], []. rewrite !app_nil_r. repeat split; simpl; [lia | intros c []].
  - eexists [], [_]. rewrite !app_nil_r. repeat split; simpl; [lia|].
    intros c [<-|[]]. reflexivity.
  - exists [], []. rewrite !app_nil_r. repeat split; simpl;
      [lia | intros c [] | apply update_first_ids].
Qed.

End Invariants.

(** ** Jobs, continued *)

Section JobsMore.

Variable X : Externals.

Lemma update_first_missing (i u : ObjectId) (l : list Job) :
  find (fun j => N.eqb (j_id j) i) l = None -> update_first i u l = l.
Proof.
  induction l as [|j rest IH]; simpl; [reflexivity|].
  destruct (N.eqb (j_id j) i); [discriminate|].
  intros F. now rewrite (IH F).
Qed.


Lemma addToSet_extends (u : ObjectId) (l : list ObjectId) :
  exists tail, addToSet u l = (l ++ tail)%list.
Proof.
  unfold addToSet. destruct (existsb (N.eqb u) l).
  - exists []. now rewrite app_nil_r.
  - now exists [u].
Qed.

(** Applying to a job that does not exist is not an error: the route
    answers 200 [{message: "Applied"}] and the database is unchanged. *)
Theorem apply_missing_job (req : Request) (db : DB) (a : User) (j : ObjectId) :
  authenticated_as X req db a ->
  castObjectId X (params_id req) = Some j ->
  Job_findById j db = None ->
  POST_jobs_apply X req db = (Ok (json (message "Applied")), db).
Proof.
  intros A C F. unfold POST_jobs_apply.
  rewrite (protected_next X _ _ _ _ A), (jobs_apply_run X _ _ _ j C).
  rewrite (update_first_missing _ _ _ F). now destruct db.
Qed.



(** Reading a job that does not exist is not an error either: the route
    answers 200 with the JSON value null. *)
Theorem jobs_by_id_missing_is_null (req req' : Request) (db : DB) (j : ObjectId) :
  auth X req db = (Ok (Next req'), db) ->
  castObjectId X (params_id req) = Some j ->
  Job_findById j db = None ->
  GET_jobs_id X req db = (Ok (mkResponse 200 JNull), db).
Proof.
  intros A C F. unfold GET_jobs_id. rewrite (protected_next X _ _ _ _ A).
  destruct (auth_next_shape X _ _ _ A) as [u ->].
  unfold jobs_by_id, Job_findById_populate, Job_findById in *. run. simpl.
  now rewrite C, F.
Qed.

(** Apply, then read the same job with the same request: the answer is the
    job with that [_id], and its applicants are the earlier ones with the
    caller added if it was not among them. *)
Theorem apply_then_read (req : Request) (db : DB) (a : User) (j : ObjectId) (jb : Job) :
  authenticated_as X req db a ->
  castObjectId X (params_id req) = Some j ->
  Job_findById j db = Some jb ->
  exists db1 item,
    POST_jobs_apply X req db = (Ok (json (message "Applied")), db1) /\
    GET_jobs_id X req db1 = (Ok (json item), db1) /\
    field "_id" item = Some (JOid j) /\
    field "applicants" item
    = Some (JArr (map JOid (addToSet (u_id a) (applicants jb)))) /\
    In (JOid (u_id a)) (map JOid (addToSet (u_id a) (applicants jb))).
Proof.
  intros A C F.
  pose (db1 := mkDB (users db) (connectionrequests db)
                    (update_first j (u_id a) (jobs db)) (next_oid db)).
  assert (A1 : authenticated_as X req db1 a)
    by (apply (authenticated_frame X req db db1 a); [reflexivity | exact A]).
  unfold Job_findById in F.
  destruct (update_first_found j (u_id a) (jobs db) jb F)
    as (jb1 & F1 & E & I & _).
  exists db1, (Job_toJSON (users db) jb1).
  unfold POST_jobs_apply, GET_jobs_id.
  rewrite (protected_next X _ _ _ _ A), (protected_next X _ _ _ _ A1).
  rewrite (jobs_apply_run X _ _ _ j C).
  split; [reflexivity|]. split.
  - unfold jobs_by_id, Job_findById_populate. run. simpl. now rewrite C, F1.
  - apply find_some in F. destruct F as [_ Ej]. apply N.eqb_eq in Ej.
    simpl. rewrite I, Ej, E. repeat split.
    apply in_map, addToSet_In.
Qed.

End JobsMore.

(** ** Accounts, continued *)

Section AccountsMore.

Variable X : Externals.

Lemma find_snoc {A : Type} (f : A -> bool) (l : list A) (a : A) :
  find f (l ++ [a])
  = match find f l with
    | Some x => Some x
    | None => if f a then Some a else None
    end.
Proof.
  induction l as [|x l IH]; simpl; [reflexivity|].
  destruct (f x); [reflexivity | exact IH].
Qed.

Lemma carries_token_and_user (token : string) (u : User) :
  carries (json (token_and_user token u)) token u.
Proof. repeat split; reflexivity. Qed.

(** What registration does when the email is new, a password is given and
    signing succeeds, as one equation. *)
Lemma register_new (req : Request) (db : DB) (e pw token : string) :
  b_email (body req) = Some e ->
  b_password (body req) = Some pw ->
  (forall u, In u (users db) -> email u <> Some e) ->
  jwt_sign X (mkPayload (next_oid db)) (JWT_SECRET X) = Ok token ->
  let u := mkUser (next_oid db) (b_name (body req)) (Some e)
                  (Some (bcrypt_hash X pw 10)) None [] [] in
  register X req db
  = (Ok (json (token_and_user token u)),
     mkDB (users db ++ [u]) (connectionrequests db) (jobs db) (N.succ (next_oid db))).
Proof.
  intros Em Pw A Sg. destruct (find_email_absent _ _ A) as [F E].
  unfold register, User_findOne, User_create. run.
  rewrite Em, Pw, F, E. cbn [u_id]. now rewrite Sg.
Qed.

(** Registration never leaves a request unanswered and never lets an
    exception escape: whatever the body and whatever the collaborators do,
    the answer is 200, 400 or 500.  A 400 stores nothing, a 200 stores
    exactly one user, and no answer stores more than one. *)
Theorem register_always_answers (req : Request) (db : DB) :
  exists r db',
    register X req db = (Ok r, db') /\
    (code r = 200%N \/ code r = 400%N \/ code r = 500%N) /\
    (code r = 400%N -> db' = db) /\
    (code r = 200%N -> List.length (users db') = S (List.length (users db))) /\
    (List.length (users db') <= S (List.length (users db)))%nat.
Proof.
  unfold register, User_findOne, User_create. run.
  destruct (match b_email (body req) with Some _ => _ | None => _ end); simpl.
  { do 2 eexists. split; [reflexivity|]. simpl.
    repeat split; auto; try discriminate; lia. }
  destruct (b_password (body req)) as [pw|]; simpl.
  2:{ do 2 eexists. split; [reflexivity|]. simpl.
      repeat split; auto; try discriminate; lia. }
  destruct (existsb _ (users db)); simpl.
  { do 2 eexists. split; [reflexivity|]. simpl.
    repeat split; auto; try discriminate; lia. }
  destruct (jwt_sign X _ _); simpl;
    (do 2 eexists; split; [reflexivity|]; simpl; rewrite length_app; simpl;
     repeat split; auto; try discriminate; lia).
Qed.

(** When [jwt.sign] throws, a registration with a new email and a password
    is answered 500 although the user has been stored: the insert comes
    before the signing inside the same [try] block.  The same request sent
    again is then answered 400. *)
Theorem register_sign_failure_stores_user (req : Request) (db : DB)
    (e pw : string) (err : Exn) :
  b_email (body req) = Some e ->
  b_password (body req) = Some pw ->
  (forall u, In u (users db) -> email u <> Some e) ->
  jwt_sign X (mkPayload (next_oid db)) (JWT_SECRET X) = Threw err ->
  exists u db1,
    register X req db = (Ok (status_json 500 (message "Server error")), db1) /\
    users db1 = (users db ++ [u])%list /\
    email u = Some e /\
    register X req db1
    = (Ok (status_json 400 (message "Email already exists")), db1).
Proof.
  intros Em Pw A Sg. destruct (find_email_absent _ _ A) as [F E].
  do 2 eexists. split; [|split; [|split]].
  - unfold register, User_findOne, User_create. run.
    rewrite Em, Pw, F, E. cbn [u_id]. rewrite Sg. reflexivity.
  - reflexivity.
  - reflexivity.
  - unfold register, User_findOne. run. rewrite Em. cbn [users].
    rewrite find_snoc, F. unfold has_email. simpl. now rewrite String.eqb_refl.
Qed.

(** A login with the email of a stored user and a password its hash
    accepts answers 200 with a body whose [user] field is that user and
    whose [token] field verifies to the user's [_id]; nothing is stored. *)
Theorem login_success (req : Request) (db : DB) (u : User) (e pw h : string) :
  jwt_round_trip X ->
  b_email (body req) = Some e ->
  b_password (body req) = Some pw ->
  find (has_email (Some e)) (users db) = Some u ->
  password u = Some h ->
  bcrypt_compareSync X pw h = true ->
  exists token r,
    login X req db = (Ok r, db) /\
    carries r token u /\
    jwt_verify X token (JWT_SECRET X) = Ok (mkPayload (u_id u)).
Proof.
  intros RT Em Pw F P W. destruct (RT (mkPayload (u_id u))) as (t & Sg & Vf).
  exists t. eexists. split; [|split; [|exact Vf]].
  - unfold login, User_findOne. run. rewrite Em, F, Pw, P, W. simpl.
    rewrite Sg. reflexivity.
  - apply carries_token_and_user.
Qed.

(** Register with a new email and a password, then log in with the same
    body: the login answers 200 with the user just stored and a token that
    verifies to that user's [_id]. *)
Theorem register_then_login (req : Request) (db : DB) (e pw : string) :
  jwt_round_trip X ->
  bcrypt_correct X ->
  b_email (body req) = Some e ->
  b_password (body req) = Some pw ->
  (forall u, In u (users db) -> email u <> Some e) ->
  exists token u r db1 token' r',
    register X req db = (Ok r, db1) /\
    carries r token u /\
    login X req db1 = (Ok r', db1) /\
    carries r' token' u /\
    email u = Some e /\
    jwt_verify X token' (JWT_SECRET X) = Ok (mkPayload (u_id u)).
Proof.
  intros RT BC Em Pw A.
  destruct (RT (mkPayload (next_oid db))) as (t & Sg & Vf).
  destruct (find_email_absent _ _ A) as [F _].
  exists t. do 3 eexists. exists t. eexists.
  split; [apply (register_new req db e pw t Em Pw A Sg)|].
  split; [apply carries_token_and_user|].
  split; [|split; [apply carries_token_and_user | split; [reflexivity | exact Vf]]].
  unfold login, User_findOne. run. rewrite Em, Pw. cbn [users].
  rewrite find_snoc, F. unfold has_email. simpl. rewrite String.eqb_refl. simpl.
  rewrite BC. simpl. now rewrite Sg.
Qed.

(** Register with a new email and a password, then present the [token]
    field of the answer as [Bearer <token>]: on a database whose user ids
    were all drawn earlier, the gate lets every such request through as the
    user just stored, without the secret. *)
Theorem register_then_authenticated (req : Request) (db : DB) (e pw : string)
    (q : option string) (param : string) :
  jwt_round_trip X ->
  jwt_one_word X ->
  user_ids_drawn db ->
  b_email (body req) = Some e ->
  b_password (body req) = Some pw ->
  (forall u, In u (users db) -> email u <> Some e) ->
  exists token u r db1,
    register X req db = (Ok r, db1) /\
    carries r token u /\
    authenticated_as X (request (Some ("Bearer " ++ token)) q param) db1
      (select_minus_password u) /\
    name u = b_name (body req) /\ password (select_minus_password u) = None.
Proof.
  intros RT OW Dr Em Pw A.
  destruct (RT (mkPayload (next_oid db))) as (t & Sg & Vf).
  exists t. do 3 eexists.
  split; [apply (register_new req db e pw t Em Pw A Sg)|].
  split; [apply carries_token_and_user|]. split; [|split; reflexivity].
  eapply auth_passes.
  - reflexivity.
  - discriminate.
  - apply split_bearer, (OW _ _ Sg).
  - exact Vf.
  - simpl. rewrite find_snoc.
    destruct (find _ (users db)) as [v|] eqn:F.
    + apply find_some in F. destruct F as [I E]. apply N.eqb_eq in E.
      specialize (Dr v I). simpl in E. lia.
    + simpl. now rewrite N.eqb_refl.
Qed.

End AccountsMore.

(** ** User search, continued *)

Section SearchMore.

Variable X : Externals.

(** With no [q], or an empty one, the search lists the stored users that
    have a name, all of them and in collection order; a user stored
    without a name is never listed. *)
Theorem users_all_no_query (req req' : Request) (db : DB) :
  regex_empty_matches X ->
  auth X req db = (Ok (Next req'), db) ->
  query_q req = None \/ query_q req = Some "" ->
  GET_users_all X req db
  = (Ok (json (JArr (map User_toJSON
                       (filter (fun u => match name u with
                                         | Some _ => true
                                         | None => false
                                         end) (users db))))), db).
Proof.
  intros (test & R & T) A Q. unfold GET_users_all.
  rewrite (protected_next X _ _ _ _ A).
  destruct (auth_next_shape X _ _ _ A) as [u ->].
  assert (E : query_or_empty (set_user req u) = "")
    by (unfold query_or_empty; simpl; now destruct Q as [-> | ->]).
  rewrite (users_all_run X _ db test) by now rewrite E.
  do 5 f_equal. apply filter_ext. intros v. unfold name_matches.
  destruct (name v); [apply T | reflexivity].
Qed.

(** A [q] the store rejects as a pattern makes the search throw after the
    gate: no response is sent. *)
Theorem users_all_bad_pattern (req req' : Request) (db : DB) :
  auth X req db = (Ok (Next req'), db) ->
  regex X (query_or_empty req) "i" = None ->
  GET_users_all X req db = (Threw RegexError, db).
Proof.
  intros A R. unfold GET_users_all. rewrite (protected_next X _ _ _ _ A).
  destruct (auth_next_shape X _ _ _ A) as [u ->].
  unfold users_all, User_find_regex. run.
  change (query_or_empty (set_user req u)) with (query_or_empty req).
  now rewrite R.
Qed.

End SearchMore.

(** ** Further sample runs *)

Lemma bcrypt_correct_holds : bcrypt_correct Sample.externals.
Proof. intros pw. simpl. unfold Sample.compareSync. apply String.eqb_refl. Qed.

Lemma auth_accepts_witness :
  authenticated_as Sample.externals (request (Some "Token s3cret.0x1") None "")
    Sample.db0 (select_minus_password Sample.alice).
Proof.
  apply (auth_accepts Sample.externals (request (Some "Token s3cret.0x1") None "")
           Sample.db0 "Token s3cret.0x1" "s3cret.0x1" (mkPayload 1%N) Sample.alice).
  - reflexivity.
  - discriminate.
  - reflexivity.
  - reflexivity.
  - reflexivity.
Defined.

Lemma auth_principal_without_password_witness :
  has_key "password" (User_toJSON (select_minus_password Sample.bob)) = false /\
  exists stored,
    In stored (users Sample.db0) /\
    select_minus_password Sample.bob = select_minus_password stored.
Proof.
  destruct (auth_principal_without_password Sample.externals
              (request (Some "Bearer s3cret.0x2") None "")
              (set_user (request (Some "Bearer s3cret.0x2") None "")
                        (Some (select_minus_password Sample.bob)))
              Sample.db0 Sample.db0) as (_ & _ & _ & _ & _ & P).
  - reflexivity.
  - apply (P (select_minus_password Sample.bob)). reflexivity.
Defined.

Lemma null_principal_throws_witness :
  POST_connections_request Sample.externals
    (request (Some "Bearer s3cret.0x5") None "0x2") Sample.db0
  = (Threw TypeError, Sample.db0) /\
  POST_jobs_apply Sample.externals
    (request (Some "Bearer s3cret.0x5") None "0x2") Sample.db0
  = (Threw TypeError, Sample.db0).
Proof.
  apply (null_principal_throws Sample.externals
           (request (Some "Bearer s3cret.0x5") None "0x2") Sample.db0).
  reflexivity.
Defined.

Lemma bad_id_throws_witness :
  POST_connections_request Sample.externals
    (request (Some "Bearer s3cret.0x1") None "bob") Sample.db0
  = (Threw CastError, Sample.db0) /\
  POST_jobs_apply Sample.externals
    (request (Some "Bearer s3cret.0x1") None "bob") Sample.db0
  = (Threw CastError, Sample.db0) /\
  GET_jobs_id Sample.externals
    (request (Some "Bearer s3cret.0x1") None "bob") Sample.db0
  = (Threw CastError, Sample.db0).
Proof.
  apply (bad_id_throws Sample.externals
           (request (Some "Bearer s3cret.0x1") None "bob") Sample.db0
           (select_minus_password Sample.alice)).
  - reflexivity.
  - reflexivity.
Defined.

Lemma read_only_routes_witness :
  snd (app Sample.externals PostLogin (credentials "" "alice@x.com" "pw1") Sample.db0)
  = Sample.db0.
Proof.
  apply (read_only_routes Sample.externals PostLogin
           (credentials "" "alice@x.com" "pw1") Sample.db0).
  reflexivity.
Defined.

Lemma emails_unique_db0 : emails_unique Sample.db0.
Proof.
  unfold emails_unique. simpl.
  repeat constructor; simpl; intuition discriminate.
Defined.

Lemma emails_stay_unique_witness :
  emails_unique
    (snd (app Sample.externals PostRegister
            (credentials "carol" "carol@x.com" "pw4") Sample.db0)).
Proof.
  apply (emails_stay_unique Sample.externals PostRegister
           (credentials "carol" "carol@x.com" "pw4") Sample.db0).
  exact emails_unique_db0.
Defined.

Lemma pairs_stay_unique_witness :
  pairs_unique
    (snd (app Sample.externals PostConnectionsRequest
            (request (Some "Bearer s3cret.0x2") None "0x1") Sample.db_ab)).
Proof.
  apply (pairs_stay_unique Sample.externals PostConnectionsRequest
           (request (Some "Bearer s3cret.0x2") None "0x1") Sample.db_ab).
  unfold pairs_unique. simpl. repeat constructor. simpl. intuition.
Defined.

Lemma apply_missing_job_witness :
  POST_jobs_apply Sample.externals
    (request (Some "Bearer s3cret.0x1") None "0x9") Sample.db0
  = (Ok (json (message "Applied")), Sample.db0).
Proof.
  apply (apply_missing_job Sample.externals
           (request (Some "Bearer s3cret.0x1") None "0x9") Sample.db0
           (select_minus_password Sample.alice) 9%N).
  - reflexivity.
  - reflexivity.
  - reflexivity.
Defined.



Lemma jobs_by_id_missing_is_null_witness :
  GET_jobs_id Sample.externals (request (Some "Bearer s3cret.0x1") None "0x9") Sample.db0
  = (Ok (mkResponse 200 JNull), Sample.db0).
Proof.
  apply (jobs_by_id_missing_is_null Sample.externals
           (request (Some "Bearer s3cret.0x1") None "0x9")
           (set_user (request (Some "Bearer s3cret.0x1") None "0x9")
                     (Some (select_minus_password Sample.alice)))
           Sample.db0 9%N).
  - reflexivity.
  - reflexivity.
  - reflexivity.
Defined.

Lemma apply_then_read_witness :
  exists db1 item,
    POST_jobs_apply Sample.externals
      (request (Some "Bearer s3cret.0x1") None "0x7") Sample.db0
    = (Ok (json (message "Applied")), db1) /\
    GET_jobs_id Sample.externals
      (request (Some "Bearer s3cret.0x1") None "0x7") db1
    = (Ok (json item), db1) /\
    field "_id" item = Some (JOid 7%N) /\
    field "applicants" item = Some (JArr [JOid 1%N]).
Proof.
  destruct (apply_then_read Sample.externals
              (request (Some "Bearer s3cret.0x1") None "0x7") Sample.db0
              (select_minus_password Sample.alice) 7%N Sample.post_job)
    as (db1 & item & R1 & R2 & I & Ap & _).
  - reflexivity.
  - reflexivity.
  - reflexivity.
  - exists db1, item. repeat split; assumption.
Defined.

Lemma login_success_witness :
  exists token r,
    login Sample.externals (credentials "" "bob@x.com" "pw2") Sample.db0
    = (Ok r, Sample.db0) /\
    carries r token Sample.bob /\
    Sample.verify token "s3cret" = Ok (mkPayload 2%N).
Proof.
  apply (login_success Sample.externals (credentials "" "bob@x.com" "pw2")
           Sample.db0 Sample.bob "bob@x.com" "pw2" "$2a$pw2"
           SampleFacts.jwt_round_trip_holds).
  - reflexivity.
  - reflexivity.
  - reflexivity.
  - reflexivity.
  - reflexivity.
Defined.

Lemma register_then_login_witness :
  exists token u r db1 token' r',
    register Sample.externals (credentials "carol" "carol@x.com" "pw4") Sample.db0
    = (Ok r, db1) /\
    carries r token u /\
    login Sample.externals (credentials "carol" "carol@x.com" "pw4") db1
    = (Ok r', db1) /\
    carries r' token' u /\
    email u = Some "carol@x.com" /\
    Sample.verify token' "s3cret" = Ok (mkPayload (u_id u)).
Proof.
  apply (register_then_login Sample.externals
           (credentials "carol" "carol@x.com" "pw4") Sample.db0
           "carol@x.com" "pw4"
           SampleFacts.jwt_round_trip_holds bcrypt_correct_holds).
  - reflexivity.
  - reflexivity.
  - simpl. intros u [<-|[<-|[<-|[]]]]; discriminate.
Defined.

Lemma register_then_authenticated_witness :
  exists token u r db1,
    register Sample.externals (credentials "carol" "carol@x.com" "pw4") Sample.db0
    = (Ok r, db1) /\
    carries r token u /\
    authenticated_as Sample.externals
      (request (Some ("Bearer " ++ token)) (Some "ali") "") db1
      (select_minus_password u) /\
    name u = Some "carol" /\ password (select_minus_password u) = None.
Proof.
  apply (register_then_authenticated Sample.externals
           (credentials "carol" "carol@x.com" "pw4") Sample.db0
           "carol@x.com" "pw4" (Some "ali") ""
           SampleFacts.jwt_round_trip_holds SampleFacts.jwt_one_word_holds).
  - unfold user_ids_drawn. simpl. intros u [<-|[<-|[<-|[]]]]; simpl; lia.
  - reflexivity.
  - reflexivity.
  - simpl. intros u [<-|[<-|[<-|[]]]]; discriminate.
Defined.

Lemma register_sign_failure_stores_user_witness :
  exists u db1,
    register Sample.externals_no_sign (credentials "carol" "carol@x.com" "pw4")
      Sample.db0
    = (Ok (status_json 500 (message "Server error")), db1) /\
    users db1 = [Sample.alice; Sample.bob; Sample.abc; u] /\
    email u = Some "carol@x.com" /\
    register Sample.externals_no_sign (credentials "carol" "carol@x.com" "pw4") db1
    = (Ok (status_json 400 (message "Email already exists")), db1).
Proof.
  apply (register_sign_failure_stores_user Sample.externals_no_sign
           (credentials "carol" "carol@x.com" "pw4") Sample.db0
           "carol@x.com" "pw4" JsonWebTokenError).
  - reflexivity.
  - reflexivity.
  - simpl. intros u [<-|[<-|[<-|[]]]]; discriminate.
  - reflexivity.
Defined.

Lemma regex_empty_matches_holds : regex_empty_matches Sample.externals.
Proof.
  exists (Sample.search true ""). split; [reflexivity|].
  intros s. now destruct s.
Qed.

Lemma users_all_no_query_witness :
  GET_users_all Sample.externals (request (Some "Bearer s3cret.0x1") None "")
    Sample.db_nameless
  = (Ok (json (JArr [User_toJSON Sample.alice])), Sample.db_nameless).
Proof.
  apply (users_all_no_query Sample.externals
           (request (Some "Bearer s3cret.0x1") None "")
           (set_user (request (Some "Bearer s3cret.0x1") None "")
                     (Some (select_minus_password Sample.alice)))
           Sample.db_nameless regex_empty_matches_holds).
  - reflexivity.
  - left. reflexivity.
Defined.

(** C10, the claim as written fails: on a job whose stored applicants list
    alice twice, her application is answered [{message: "Applied"}] and
    leaves the list as it is, so her identifier still appears twice. *)
Lemma apply_keeps_stored_duplicates :
  authenticated_as Sample.externals
    (request (Some "Bearer s3cret.0x1") None "0x7") Sample.db_seeded
    (select_minus_password Sample.alice) /\
  POST_jobs_apply Sample.externals
    (request (Some "Bearer s3cret.0x1") None "0x7") Sample.db_seeded
  = (Ok (json (message "Applied")), Sample.db_seeded) /\
  Job_findById 7%N Sample.db_seeded = Some Sample.seeded_job /\
  count_occ N.eq_dec (applicants Sample.seeded_job) (u_id Sample.alice) = 2%nat.
Proof.
  repeat split.
Qed.

Lemma users_all_bad_pattern_witness :
  GET_users_all Sample.externals
    (request (Some "Bearer s3cret.0x1") (Some "(") "") Sample.db0
  = (Threw RegexError, Sample.db0).
Proof.
  apply (users_all_bad_pattern Sample.externals
           (request (Some "Bearer s3cret.0x1") (Some "(") "")
           (set_user (request (Some "Bearer s3cret.0x1") (Some "(") "")
                     (Some (select_minus_password Sample.alice)))
           Sample.db0).
  - reflexivity.
  - reflexivity.
Defined.
